(** * A shallow embedding of [bangre/app.py]

    The Flask application is modelled as a set of request handlers running
    in a small state-and-exception monad over the persistent state the
    program touches: the two SQL tables, the upload folder, the signed
    session cookie and the flashed messages. *)

From Stdlib Require Import Ascii String.
From stdpp Require Import gmap strings list fin_maps.

Open Scope string_scope.
Open Scope list_scope.

(** ** Python strings

    A [str] is modelled by its UTF-8 bytes.  The operations the program
    performs itself on strings (equality, emptiness, looking for the ASCII
    character ['.']) are the same on code points and on UTF-8 bytes. *)

Definition dot : ascii := "."%char.

(** ['.' in s] *)
Fixpoint dot_in (s : string) : bool :=
  match s with
  | EmptyString => false
  | String c rest => if decide (c = dot) then true else dot_in rest
  end.

(** The two halves of [s] around its last ['.'], if it has one. *)
Fixpoint rpartition_dot (s : string) : option (string * string) :=
  match s with
  | EmptyString => None
  | String c rest =>
      match rpartition_dot rest with
      | Some (before, after) => Some (String c before, after)
      | None => if decide (c = dot) then Some (EmptyString, rest) else None
      end
  end.

(** [s.rsplit('.', 1)]: one or two pieces. *)
Definition rsplit_dot_1 (s : string) : list string :=
  match rpartition_dot s with
  | Some (before, after) => [before; after]
  | None => [s]
  end.

(** Truthiness of the values the handlers test with [if] or [all]. *)
Definition truthy_str (s : string) : bool :=
  match s with EmptyString => false | _ => true end.

Definition truthy_opt_str (o : option string) : bool :=
  match o with Some s => truthy_str s | None => false end.

(** ** Sample string primitives on the ASCII range

    [str.lower], [str.strip] and werkzeug's [secure_filename] are library
    code; the handlers below take them as parameters.  The functions of this
    section agree with [str.lower] and [str.strip] on ASCII text and serve
    to run the model on concrete requests. *)

Definition ascii_lower_char (c : ascii) : ascii :=
  let n := nat_of_ascii c in
  if (65 <=? n)%nat && (n <=? 90)%nat then ascii_of_nat (n + 32) else c.

Fixpoint ascii_lower (s : string) : string :=
  match s with
  | EmptyString => EmptyString
  | String c rest => String (ascii_lower_char c) (ascii_lower rest)
  end.

(** The ASCII characters for which [str.isspace] holds: TAB, LF, VT, FF,
    CR, the four separators FS, GS, RS, US, and the space. *)
Definition ascii_isspace (c : ascii) : bool :=
  let n := nat_of_ascii c in
  ((9 <=? n)%nat && (n <=? 13)%nat) || ((28 <=? n)%nat && (n <=? 32)%nat).

Fixpoint lstrip (s : string) : string :=
  match s with
  | EmptyString => EmptyString
  | String c rest => if ascii_isspace c then lstrip rest else s
  end.

Fixpoint rstrip (s : string) : string :=
  match s with
  | EmptyString => EmptyString
  | String c rest =>
      match rstrip rest with
      | EmptyString => if ascii_isspace c then EmptyString else String c EmptyString
      | kept => String c kept
      end
  end.

Definition ascii_strip (s : string) : string := rstrip (lstrip s).

(** A stand-in for [secure_filename] on plain names: keeps letters, digits,
    ['_'], ['-'] and ['.'] and drops everything else. *)
Definition safe_char (c : ascii) : bool :=
  let n := nat_of_ascii c in
  ((48 <=? n)%nat && (n <=? 57)%nat) || ((65 <=? n)%nat && (n <=? 90)%nat)
  || ((97 <=? n)%nat && (n <=? 122)%nat)
  || (n =? 95)%nat || (n =? 45)%nat || (n =? 46)%nat.

Fixpoint keep_safe_chars (s : string) : string :=
  match s with
  | EmptyString => EmptyString
  | String c rest =>
      if safe_char c then String c (keep_safe_chars rest) else keep_safe_chars rest
  end.

(** ** The extension table (lines 17-22) *)

(** [ALLOWED_EXTENSIONS], a dict from extension to file type. *)
Definition ALLOWED_EXTENSIONS : gmap string string :=
  list_to_map
    [ ("pdf", "pdf");
      ("jpg", "image"); ("jpeg", "image"); ("png", "image"); ("gif", "image");
      ("webp", "image");
      ("mp4", "video"); ("avi", "video"); ("mov", "video"); ("mkv", "video");
      ("webm", "video") ].

(** [key in d] for a dict [d]. *)
Definition dict_has {V} (key : string) (d : gmap string V) : bool :=
  bool_decide (is_Some (d !! key)).

Section ExtensionClassifier.

(** [str.lower] *)
Variable lower : string → string.

(** [allowed_file] (lines 55-56).  The subscript [[1]] raises IndexError
    on a one-piece split; the test ['.' in filename] comes first and
    short-circuits, so that case contributes [false]. *)
Definition allowed_file (filename : string) : bool :=
  dot_in filename &&
  match rsplit_dot_1 filename !! 1%nat with
  | Some suffix => dict_has (lower suffix) ALLOWED_EXTENSIONS
  | None => false
  end.

(** [get_file_type_from_ext] (lines 58-66) *)
Definition get_file_type_from_ext (ext : string) : option string :=
  let ext := lower ext in
  if decide (ext = "pdf") then Some "pdf"
  else if decide (ext ∈ ["jpg"; "jpeg"; "png"; "gif"; "webp"]) then Some "image"
  else if decide (ext ∈ ["mp4"; "avi"; "mov"; "mkv"; "webm"]) then Some "video"
  else None.

End ExtensionClassifier.

(** ** Persistent state *)

(** A row of table [category] (lines 33-35). *)
Module Category.
Record t := mk { id : Z; name : string }.
End Category.

(** A row of table [resource] (lines 37-44).  [category_id] holds what the
    handler passes to the constructor: the text of form field [category]. *)
Module Resource.
Record t := mk {
  id : Z;
  title : string;
  description : option string;
  filename : string;
  file_type : string;
  category_id : string
}.
End Resource.

Definition bytes := list Byte.byte.

(** The side effects of a request on the tables and on the upload folder;
    the journal keeps them in the order they happen. *)
Inductive Effect :=
| FileSaved (name : string)
| FileRemoved (name : string)
| CategoryInserted (id : Z)
| ResourceInserted (id : Z)
| ResourceDeleted (id : Z).

(** Everything a handler reads or writes: the two tables in rowid order,
    the files of [UPLOAD_FOLDER] by name, the session cookie, the flashed
    [(message, category)] pairs, and the journal of side effects. *)
Record World := mkWorld {
  categories : list Category.t;
  resources : list Resource.t;
  uploads : gmap string bytes;
  session : gmap string bool;
  flashes : list (string * string);
  journal : list Effect
}.

(** ** Requests and responses *)

Inductive Method := GET | POST.

(** werkzeug's [FileStorage]: an uploaded part with its client file name. *)
Module FileStorage.
Record t := mk { filename : string; stream : bytes }.
End FileStorage.

Record Request := mkRequest {
  method : Method;
  args : gmap string string;
  form : gmap string string;
  files : gmap string FileStorage.t
}.

Inductive Response :=
| redirect (location : string)
| render_login
| render_admin (resources : list Resource.t) (categories : list Category.t).

(** The exceptions that leave a handler: [form[key]] on a missing key is a
    400, [get_or_404] a 404, any other Python exception a 500. *)
Inductive HTTPException := BadRequest | NotFound | InternalServerError.

Inductive Outcome (A : Type) :=
| Returned (a : A)
| Raised (e : HTTPException).
Arguments Returned {A} a.
Arguments Raised {A} e.

(** ** The handler monad: state, with exceptions that keep the state *)

Definition Handler (A : Type) : Type := World → Outcome A * World.

#[global] Instance Handler_ret : MRet Handler := λ A a w, (Returned a, w).

#[global] Instance Handler_bind : MBind Handler := λ A B k m w,
  match m w with
  | (Returned a, w') => k a w'
  | (Raised e, w') => (Raised e, w')
  end.

Definition raise {A} (e : HTTPException) : Handler A := λ w, (Raised e, w).
Definition gets {A} (f : World → A) : Handler A := λ w, (Returned (f w), w).
Definition modify (f : World → World) : Handler unit := λ w, (Returned tt, f w).

Definition log (e : Effect) (w : World) : World :=
  mkWorld (categories w) (resources w) (uploads w) (session w) (flashes w)
          (journal w ++ [e]).

(** The state after one more flashed message. *)
Definition flashed (m : string * string) (w : World) : World :=
  mkWorld (categories w) (resources w) (uploads w) (session w)
          (flashes w ++ [m]) (journal w).

(** [flash(message, category)] *)
Definition flash (message category : string) : Handler unit :=
  modify (flashed (message, category)).

(** [request.form[key]] *)
Definition form_getitem (request : Request) (key : string) : Handler string :=
  match form request !! key with
  | Some v => mret v
  | None => raise BadRequest
  end.

(** [l[i]] on a Python list *)
Definition getitem {A} (l : list A) (i : nat) : Handler A :=
  match l !! i with
  | Some v => mret v
  | None => raise InternalServerError
  end.

(** [session.get('admin')], taken as a condition *)
Definition session_admin (w : World) : bool := default false (session w !! "admin").

(** ** The tables *)

(** The rowid SQLite gives a new row: one more than the largest in use. *)
Definition next_id (ids : list Z) : Z := (foldr Z.max 0 ids + 1)%Z.

(** [Category.query.filter_by(name=name).first()] *)
Definition Category_by_name (name : string) (w : World) : option Category.t :=
  head (filter (λ c, Category.name c = name) (categories w)).

(** [db.session.add(Category(name=name)); db.session.commit()] *)
Definition add_Category (name : string) : Handler unit :=
  modify (λ w,
    let id := next_id (Category.id <$> categories w) in
    log (CategoryInserted id)
      (mkWorld (categories w ++ [Category.mk id name]) (resources w) (uploads w)
               (session w) (flashes w) (journal w))).

(** [db.session.add(Resource(...)); db.session.commit()].  The program
    opens its SQLite file (line 12) without ever issuing
    [PRAGMA foreign_keys=ON], and SQLite checks no FOREIGN KEY clause
    without it: the row goes in whatever [category_id] holds. *)
Definition add_Resource (title : string) (description : option string)
    (filename file_type category_id : string) : Handler unit :=
  modify (λ w,
    let id := next_id (Resource.id <$> resources w) in
    log (ResourceInserted id)
      (mkWorld (categories w)
               (resources w ++
                  [Resource.mk id title description filename file_type category_id])
               (uploads w) (session w) (flashes w) (journal w))).

(** [Resource.query.get_or_404(resource_id)] *)
Definition Resource_get_or_404 (resource_id : Z) : Handler Resource.t :=
  found ← gets (λ w, head (filter (λ r, Resource.id r = resource_id) (resources w)));
  match found with
  | Some resource => mret resource
  | None => raise NotFound
  end.

(** [db.session.delete(resource); db.session.commit()]: the row goes by its
    primary key. *)
Definition delete_Resource (resource : Resource.t) : Handler unit :=
  modify (λ w,
    log (ResourceDeleted (Resource.id resource))
      (mkWorld (categories w)
               (filter (λ r, Resource.id r ≠ Resource.id resource) (resources w))
               (uploads w) (session w) (flashes w) (journal w))).

(** The admin listing (lines 170-174): [type_filter] is [None] when the
    query string has no [type]. *)
Definition Resource_query_by_type (type_filter : option string) (w : World)
    : list Resource.t :=
  if decide (type_filter ∈ [Some "pdf"; Some "image"; Some "video"])
  then filter (λ r, Some (Resource.file_type r) = type_filter) (resources w)
  else resources w.

(** ** The upload folder

    Stored names are plain file names inside [UPLOAD_FOLDER], which is what
    [secure_filename] returns. *)

(** [file.save(os.path.join(UPLOAD_FOLDER, filename))]: an existing file of
    that name is overwritten. *)
Definition file_save (filename : string) (content : bytes) : Handler unit :=
  modify (λ w,
    log (FileSaved filename)
      (mkWorld (categories w) (resources w) (<[filename := content]> (uploads w))
               (session w) (flashes w) (journal w))).

(** [os.path.exists(file_path)] *)
Definition os_path_exists (filename : string) : Handler bool :=
  gets (λ w, bool_decide (is_Some (uploads w !! filename))).

(** [os.remove(file_path)] *)
Definition os_remove (filename : string) : Handler unit :=
  modify (λ w,
    log (FileRemoved filename)
      (mkWorld (categories w) (resources w) (delete filename (uploads w))
               (session w) (flashes w) (journal w))).

(** ** Start-up (lines 46-52) *)

Definition default_category : string := "Général".

Definition bootstrap : Handler unit :=
  first ← gets (λ w, head (categories w));
  if negb (bool_decide (is_Some first)) then add_Category default_category
  else mret tt.

(** ** Flashed messages *)

Definition msg_category_created := ("Catégorie créée avec succès !", "success").
Definition msg_category_refused := ("Nom invalide ou déjà utilisé.", "error").
Definition msg_fields_required := ("Tous les champs sont obligatoires.", "error").
Definition msg_invalid_file := ("Fichier invalide ou extension non autorisée.", "error").
Definition msg_unsupported_type := ("Type de fichier non supporté.", "error").
Definition msg_resource_added := ("Contenu ajouté avec succès !", "success").
Definition msg_resource_deleted := ("Contenu supprimé définitivement.", "success").
Definition msg_wrong_password := ("Mot de passe incorrect", "error").

Definition flash_msg (m : string * string) : Handler unit := flash m.1 m.2.

(** [bool(file)] for the value of [request.files.get('file')]: a missing
    part is [None], a part is true when its file name is not empty. *)
Definition truthy_file (file : option FileStorage.t) : bool :=
  match file with
  | Some f => truthy_str (FileStorage.filename f)
  | None => false
  end.

(** Python's [all] on the truth values of a list. *)
Definition all (conditions : list bool) : bool := forallb id conditions.

(** ** The routes *)

Section Routes.

(** [str.lower], [str.strip], [werkzeug.utils.secure_filename] *)
Variable lower : string → string.
Variable strip : string → string.
Variable secure_filename : string → string.

(** The admin password, read from the environment at start-up (line 25). *)
Variable ADMIN_PASSWORD : string.

(** [/admin/login] (lines 101-108) *)
Definition admin_login (request : Request) : Handler Response :=
  match method request with
  | POST =>
      password ← form_getitem request "password";
      if decide (password = ADMIN_PASSWORD) then
        modify (λ w, mkWorld (categories w) (resources w) (uploads w)
                             (<["admin" := true]> (session w))
                             (flashes w) (journal w));;
        mret (redirect "/admin")
      else
        flash_msg msg_wrong_password;;
        mret render_login
  | GET => mret render_login
  end.

(** [/admin/logout] (lines 110-113) *)
Definition admin_logout : Handler Response :=
  modify (λ w, mkWorld (categories w) (resources w) (uploads w)
                       (delete "admin" (session w)) (flashes w) (journal w));;
  mret (redirect "/").

(** Action [create_category] (lines 128-135) *)
Definition create_category (request : Request) : Handler unit :=
  raw ← form_getitem request "new_category";
  let name := strip raw in
  existing ← gets (Category_by_name name);
  if truthy_str name && negb (bool_decide (is_Some existing)) then
    add_Category name;;
    flash_msg msg_category_created
  else
    flash_msg msg_category_refused.

(** Action [upload_resource] (lines 138-167).  Past the [all] test the
    three values are not [None]; the last case of the [match] stands for
    the exception Python would raise on a [None] there. *)
Definition upload_resource (request : Request) : Handler unit :=
  let title := form request !! "title" in
  let description := form request !! "description" in
  let category_id := form request !! "category" in
  let file := files request !! "file" in
  if negb (all [truthy_opt_str title; truthy_opt_str category_id; truthy_file file])
  then flash_msg msg_fields_required
  else
    match title, category_id, file with
    | Some title, Some category_id, Some file =>
        if negb (truthy_file (Some file))
           || negb (allowed_file lower (FileStorage.filename file))
        then flash_msg msg_invalid_file
        else
          suffix ← getitem (rsplit_dot_1 (FileStorage.filename file)) 1;
          let ext := lower suffix in
          let file_type := get_file_type_from_ext lower ext in
          if negb (truthy_opt_str file_type) then flash_msg msg_unsupported_type
          else
            match file_type with
            | Some file_type =>
                let filename := secure_filename (FileStorage.filename file) in
                file_save filename (FileStorage.stream file);;
                add_Resource title description filename file_type category_id;;
                flash_msg msg_resource_added
            | None => raise InternalServerError
            end
    | _, _, _ => raise InternalServerError
    end.

(** [/admin] (lines 116-176).  [categories] is read before the action
    runs and [resources] after it. *)
Definition admin (request : Request) : Handler Response :=
  is_admin ← gets session_admin;
  if negb is_admin then mret (redirect "/admin/login")
  else
    categories ← gets categories;
    match method request with
    | POST =>
        let action := form request !! "action" in
        if decide (action = Some "create_category") then create_category request
        else if decide (action = Some "upload_resource") then upload_resource request
        else mret tt
    | GET => mret tt
    end;;
    let type_filter := args request !! "type" in
    resources ← gets (Resource_query_by_type type_filter);
    mret (render_admin resources categories).

(** [/admin/delete/<int:resource_id>] (lines 179-192) *)
Definition delete_resource (resource_id : Z) : Handler Response :=
  is_admin ← gets session_admin;
  if negb is_admin then mret (redirect "/admin/login")
  else
    resource ← Resource_get_or_404 resource_id;
    let file_path := Resource.filename resource in
    present ← os_path_exists file_path;
    (if (present : bool) then os_remove file_path else mret tt);;
    delete_Resource resource;;
    flash_msg msg_resource_deleted;;
    mret (redirect "/admin").

End Routes.

(** ** Ids beyond SQLite's integers *)

(** The largest integer SQLite stores.  [sqlite3] raises OverflowError when
    it has to bind a larger Python int as a parameter of a statement. *)
Definition SQLITE_MAX_INT : Z := 9223372036854775807.

(** [Resource.query.get_or_404(resource_id)] for every integer the
    [<int:>] converter of a route lets through, which is any integer from 0
    on: beyond [SQLITE_MAX_INT] the SELECT cannot bind its parameter and
    the OverflowError leaves the handler as a 500; up to it the lookup is
    [Resource_get_or_404]. *)
Definition Resource_get_or_404_bound (resource_id : Z) : Handler Resource.t :=
  if decide (resource_id ≤ SQLITE_MAX_INT)%Z
  then Resource_get_or_404 resource_id
  else raise InternalServerError.

(** [/admin/delete/<int:resource_id>] (lines 179-192) with that lookup. *)
Definition delete_resource_bound (resource_id : Z) : Handler Response :=
  is_admin ← gets session_admin;
  if negb is_admin then mret (redirect "/admin/login")
  else
    resource ← Resource_get_or_404_bound resource_id;
    let file_path := Resource.filename resource in
    present ← os_path_exists file_path;
    (if (present : bool) then os_remove file_path else mret tt);;
    delete_Resource resource;;
    flash_msg msg_resource_deleted;;
    mret (redirect "/admin").



(** ** Any interleaving of start-ups and requests *)

Inductive Event :=
| Startup
| Login (request : Request)
| Logout
| Admin (request : Request)
| Delete (resource_id : Z).

Section Traces.

Variable lower : string → string.
Variable strip : string → string.
Variable secure_filename : string → string.
Variable ADMIN_PASSWORD : string.

(** The state an event leaves, whether its handler returns or raises. *)
Definition step (w : World) (e : Event) : World :=
  match e with
  | Startup => (bootstrap w).2
  | Login request => (admin_login ADMIN_PASSWORD request w).2
  | Logout => (admin_logout w).2
  | Admin request => (admin lower strip secure_filename request w).2
  | Delete resource_id => (delete_resource resource_id w).2
  end.

Fixpoint run_events (w : World) (events : list Event) : World :=
  match events with
  | [] => w
  | e :: events => run_events (step w e) events
  end.

End Traces.

(** [n] start-ups in a row. *)
Fixpoint startups (n : nat) (w : World) : World :=
  match n with
  | O => w
  | S n => startups n (bootstrap w).2
  end.

(** ** Vocabulary of the properties *)

(** The image and video extensions, as the documentation groups them. *)
Definition image_extensions : list string := ["jpg"; "jpeg"; "png"; "gif"; "webp"].
Definition video_extensions : list string := ["mp4"; "avi"; "mov"; "mkv"; "webm"].

(** The page [/admin] renders from state [w]: the listing under the [type]
    filter of the request, and the categories. *)
Definition admin_page (request : Request) (w : World) : Response :=
  render_admin (Resource_query_by_type (args request !! "type") w) (categories w).

(** The state after a committed upload. *)
Definition uploaded (title : string) (description : option string)
    (filename file_type category_id : string) (content : bytes) (w : World) : World :=
  mkWorld (categories w)
    (resources w ++
       [Resource.mk (next_id (Resource.id <$> resources w)) title description filename
                    file_type category_id])
    (<[filename := content]> (uploads w))
    (session w)
    (flashes w ++ [msg_resource_added])
    (journal w ++ [FileSaved filename;
                   ResourceInserted (next_id (Resource.id <$> resources w))]).

(** The state after the deletion of [resource]. *)
Definition deleted (resource : Resource.t) (w : World) : World :=
  mkWorld (categories w)
    (filter (λ r, Resource.id r ≠ Resource.id resource) (resources w))
    (delete (Resource.filename resource) (uploads w))
    (session w)
    (flashes w ++ [msg_resource_deleted])
    (journal w
     ++ (if bool_decide (is_Some (uploads w !! Resource.filename resource))
         then [FileRemoved (Resource.filename resource)] else [])
     ++ [ResourceDeleted (Resource.id resource)]).

(** The state after category [name] is created. *)
Definition category_created (name : string) (w : World) : World :=
  mkWorld
    (categories w ++ [Category.mk (next_id (Category.id <$> categories w)) name])
    (resources w) (uploads w) (session w)
    (flashes w ++ [msg_category_created])
    (journal w ++ [CategoryInserted (next_id (Category.id <$> categories w))]).

(** The state after the start-up has seeded an empty table. *)
Definition seeded (w : World) : World :=
  mkWorld [Category.mk 1 default_category] (resources w) (uploads w) (session w)
          (flashes w) (journal w ++ [CategoryInserted 1]).

(** How many categories carry the default name. *)
Definition default_count (w : World) : nat :=
  length (filter (λ c, Category.name c = default_category) (categories w)).

(** The UNIQUE constraint of column [category.name]. *)
Definition unique_names (w : World) : Prop :=
  NoDup (Category.name <$> categories w).

(** ** Sample states and requests *)

Definition fresh_store : World := mkWorld [] [] ∅ ∅ [] [].

(** A store after its first start-up, seen from a logged-in session. *)
Definition admin_store : World :=
  mkWorld [Category.mk 1 default_category] [] ∅ {["admin" := true]} [] [].

(** The same store seen from a session that never logged in. *)
Definition visitor_store : World :=
  mkWorld [Category.mk 1 default_category] [] ∅ ∅ [] [].

Definition report : Resource.t := Resource.mk 1 "Report" None "doc.pdf" "pdf" "1".

(** A store holding one resource whose file is on disk. *)
Definition stocked_store : World :=
  mkWorld [Category.mk 1 default_category] [report] {["doc.pdf" := []]}
          {["admin" := true]} [] [].

(** An upload of [doc.pdf] into category 999, which does not exist. *)
Definition upload_dangling : Request :=
  mkRequest POST ∅
    {["action" := "upload_resource"; "title" := "Report"; "category" := "999"]}
    {["file" := FileStorage.mk "doc.pdf" []]}.

(** An upload without a title. *)
Definition upload_untitled : Request :=
  mkRequest POST ∅
    {["action" := "upload_resource"; "category" := "1"]}
    {["file" := FileStorage.mk "doc.pdf" []]}.

Definition create_slides : Request :=
  mkRequest POST ∅ {["action" := "create_category"; "new_category" := "  Slides "]} ∅.

Definition list_audio : Request := mkRequest GET {["type" := "audio"]} ∅ ∅.

Definition login_with (password : string) : Request :=
  mkRequest POST ∅ {["password" := password]} ∅.

(** ** The public routes (lines 70-98) *)

Inductive PublicResponse :=
| render_client (resources : list Resource.t) (categories : list Category.t)
| send_file (content : bytes) (as_attachment : bool).

(** [send_from_directory(UPLOAD_FOLDER, filename, as_attachment=...)]: the
    response that serves the bytes of the file, inline or as an attachment,
    or a 404 when the folder has no file of that name. *)
Definition send_from_directory (filename : string) (as_attachment : bool)
    : Handler PublicResponse :=
  found ← gets (λ w, uploads w !! filename);
  match found with
  | Some content => mret (send_file content as_attachment)
  | None => raise NotFound
  end.

(** [/download/<int:resource_id>] (lines 82-89) *)
Definition download (resource_id : Z) : Handler PublicResponse :=
  resource ← Resource_get_or_404 resource_id;
  send_from_directory (Resource.filename resource) true.

(** [/view/<int:resource_id>] (lines 91-98) *)
Definition view (resource_id : Z) : Handler PublicResponse :=
  resource ← Resource_get_or_404 resource_id;
  send_from_directory (Resource.filename resource) false.

Section Public.

(** The comparison SQLite makes in [WHERE category_id = ?] between the
    stored value of the column and the bound text of parameter [cat]. *)
Variable category_matches : string → string → bool.

(** [/] (lines 70-80) *)
Definition index (request : Request) : Handler PublicResponse :=
  let cat_id := args request !! "cat" in
  categories ← gets categories;
  resources ← gets (λ w,
    match cat_id with
    | Some cat_id =>
        if truthy_str cat_id
        then filter (λ r, category_matches (Resource.category_id r) cat_id = true)
                    (resources w)
        else resources w
    | None => resources w
    end);
  mret (render_client resources categories).

End Public.

(** ** State changes *)

(** The file types a resource row can carry (line 42). *)
Definition file_types : list string := ["pdf"; "image"; "video"].

(** The tables and the folder, without the session and the messages. *)
Definition stores (w : World)
    : list Category.t * list Resource.t * gmap string bytes :=
  (categories w, resources w, uploads w).

(** The state with another session cookie. *)
Definition with_session (s : gmap string bool) (w : World) : World :=
  mkWorld (categories w) (resources w) (uploads w) s (flashes w) (journal w).

(** The ways one start-up or request can change the state. *)
Inductive Change (w : World) : World → Prop :=
| change_none : Change w w
| change_flash (m : string * string) : Change w (flashed m w)
| change_session (s : gmap string bool) : Change w (with_session s w)
| change_upload (title : string) (description : option string)
    (filename file_type category_id : string) (content : bytes) :
    session_admin w = true →
    file_type ∈ file_types →
    Change w (uploaded title description filename file_type category_id content w)
| change_delete (resource : Resource.t) :
    session_admin w = true →
    resource ∈ resources w →
    Change w (deleted resource w)
| change_category (name : string) :
    session_admin w = true →
    name ≠ "" →
    (∀ c, c ∈ categories w → Category.name c ≠ name) →
    Change w (category_created name w)
| change_seed :
    categories w = [] →
    Change w (seeded w).

(** Primary keys are unique and every file type is one of the three. *)
Definition well_formed (w : World) : Prop :=
  NoDup (Category.id <$> categories w) ∧
  NoDup (Resource.id <$> resources w) ∧
  Forall (λ r, Resource.file_type r ∈ file_types) (resources w).

(** An event that is neither a start-up nor a login with the right
    password. *)
Definition without_password (ADMIN_PASSWORD : string) (e : Event) : Prop :=
  match e with
  | Startup => False
  | Login request =>
      method request = GET ∨ form request !! "password" ≠ Some ADMIN_PASSWORD
  | _ => True
  end.

(** ** More sample states and requests *)

Definition upload_of (name : string) (content : bytes) : Request :=
  mkRequest POST ∅
    {["action" := "upload_resource"; "title" := "Report"; "category" := "1"]}
    {["file" := FileStorage.mk name content]}.

Definition list_by (key value : string) : Request :=
  mkRequest GET {[key := value]} ∅ ∅.

Definition plain_get : Request := mkRequest GET ∅ ∅ ∅.

Definition post_action (action : string) : Request :=
  mkRequest POST ∅ {["action" := action]} ∅.

Definition picture : Resource.t := Resource.mk 2 "Logo" None "logo.png" "image" "1".

(** A store with two resources and their files. *)
Definition library_store : World :=
  mkWorld [Category.mk 1 default_category] [report; picture]
          {["doc.pdf" := []; "logo.png" := [Byte.x89]]}
          {["admin" := true]} [] [].

(** ** Running a handler *)

Ltac monad :=
  unfold gets, modify, raise, mbind, Handler_bind, mret, Handler_ret; simpl.

Ltac run_public :=
  unfold index, download, view, send_from_directory, Resource_get_or_404;
  monad.

Ltac run :=
  unfold admin_login, admin_logout, delete_resource, create_category,
    bootstrap, Resource_get_or_404, os_path_exists, os_remove, delete_Resource,
    add_Category, add_Resource, file_save, form_getitem, getitem, flash_msg, flash;
  monad.

(** * Properties *)

(** ** The model on concrete inputs *)

Example allowed_file_upper : allowed_file ascii_lower "Report.final.PDF" = true.
Proof. vm_compute. reflexivity. Qed.

Example allowed_file_exe : allowed_file ascii_lower "malware.exe" = false.
Proof. vm_compute. reflexivity. Qed.

Example allowed_file_nodot : allowed_file ascii_lower "pdf" = false.
Proof. vm_compute. reflexivity. Qed.

Example allowed_file_hidden : allowed_file ascii_lower ".pdf" = true.
Proof. vm_compute. reflexivity. Qed.

Example file_type_jpeg : get_file_type_from_ext ascii_lower "JpEg" = Some "image".
Proof. vm_compute. reflexivity. Qed.

Example file_type_exe : get_file_type_from_ext ascii_lower "exe" = None.
Proof. vm_compute. reflexivity. Qed.

Example rsplit_two_dots : rsplit_dot_1 "a.b.c" = ["a.b"; "c"].
Proof. reflexivity. Qed.

Example rsplit_no_dot : rsplit_dot_1 "abc" = ["abc"].
Proof. reflexivity. Qed.

Example strip_example : ascii_strip "  a b  " = "a b".
Proof. vm_compute. reflexivity. Qed.

Example first_startup : (bootstrap fresh_store).2 = seeded fresh_store.
Proof. vm_compute. reflexivity. Qed.

(** ** Strings *)

Lemma dot_in_rpartition (s : string) :
  dot_in s = bool_decide (is_Some (rpartition_dot s)).
Proof.
  induction s as [|c rest IH]; simpl; [done|].
  destruct (rpartition_dot rest) as [[before after]|].
  - rewrite IH. by case_decide.
  - rewrite IH. by case_decide.
Qed.

(** [rpartition_dot] cuts at the last dot: the suffix it returns has none. *)
Lemma rpartition_dot_last (before suffix : string) :
  dot_in suffix = false →
  rpartition_dot (before +:+ String dot suffix) = Some (before, suffix).
Proof.
  intros Hsuffix. induction before as [|c before IH]; simpl.
  - rewrite dot_in_rpartition in Hsuffix.
    destruct (rpartition_dot suffix); done.
  - by rewrite IH.
Qed.

Lemma rpartition_dot_inv (s before suffix : string) :
  rpartition_dot s = Some (before, suffix) →
  s = before +:+ String dot suffix ∧ dot_in suffix = false.
Proof.
  revert before. induction s as [|c rest IH]; intros before; simpl; [done|].
  destruct (rpartition_dot rest) as [[b a]|] eqn:Hrest.
  - intros [= <- <-]. destruct (IH b eq_refl) as [-> ?]. done.
  - case_decide as Hc; [|done]. intros [= <- <-]. subst c. split; [done|].
    rewrite dot_in_rpartition, Hrest. done.
Qed.

Lemma rsplit_dot_1_suffix (s : string) :
  rsplit_dot_1 s !! 1%nat = snd <$> rpartition_dot s.
Proof. unfold rsplit_dot_1. by destruct (rpartition_dot s) as [[??]|]. Qed.

Lemma ascii_lower_char_idem (c : ascii) :
  ascii_lower_char (ascii_lower_char c) = ascii_lower_char c.
Proof. destruct c as [[] [] [] [] [] [] [] []]; reflexivity. Qed.

Lemma ascii_lower_idem (s : string) : ascii_lower (ascii_lower s) = ascii_lower s.
Proof.
  induction s as [|c rest IH]; simpl; [done|].
  by rewrite ascii_lower_char_idem, IH.
Qed.

(** ** Lists *)

Lemma head_filter_Some {A} (P : A → Prop) `{!∀ x, Decision (P x)} (l : list A) :
  (∃ x, x ∈ l ∧ P x) → ∃ y, head (filter P l) = Some y ∧ y ∈ l ∧ P y.
Proof.
  intros (x & Hx & HP).
  assert (x ∈ filter P l) as Hin by (by apply list_elem_of_filter).
  destruct (filter P l) as [|y rest] eqn:Hf; [by apply elem_of_nil in Hin|].
  exists y. split; [done|].
  assert (y ∈ filter P l) as [HPy Hy]%list_elem_of_filter by (rewrite Hf; left).
  done.
Qed.

Lemma head_filter_None {A} (P : A → Prop) `{!∀ x, Decision (P x)} (l : list A) :
  (∀ x, x ∈ l → ¬ P x) → head (filter P l) = None.
Proof.
  intros Hnone. destruct (filter P l) as [|y rest] eqn:Hf; [done|].
  assert (y ∈ filter P l) as [HP Hy]%list_elem_of_filter by (rewrite Hf; left).
  by destruct (Hnone y).
Qed.

(** ** The extension classifier *)

(** The keys of [ALLOWED_EXTENSIONS] are the eleven extensions. *)
Lemma dict_has_ALLOWED_EXTENSIONS (ext : string) :
  dict_has ext ALLOWED_EXTENSIONS =
  bool_decide (ext ∈ "pdf" :: image_extensions ++ video_extensions).
Proof.
  unfold dict_has, ALLOWED_EXTENSIONS. apply bool_decide_ext.
  rewrite <- not_eq_None_Some, <- not_elem_of_list_to_map. simpl.
  split; [apply dec_stable | auto].
Qed.

Section Classifier_facts.

Variable lower : string → string.

(** Lowering a lowered string changes nothing. *)
Hypothesis lower_idem : ∀ s, lower (lower s) = lower s.

Lemma allowed_file_no_dot (filename : string) :
  dot_in filename = false → allowed_file lower filename = false.
Proof. unfold allowed_file. by intros ->. Qed.

Lemma allowed_file_suffix (before suffix : string) :
  dot_in suffix = false →
  allowed_file lower (before +:+ String dot suffix) =
  bool_decide (lower suffix ∈ "pdf" :: image_extensions ++ video_extensions).
Proof.
  intros Hsuffix. unfold allowed_file.
  rewrite rsplit_dot_1_suffix, dot_in_rpartition, rpartition_dot_last by done.
  simpl. apply dict_has_ALLOWED_EXTENSIONS.
Qed.

Lemma get_file_type_lowered (ext : string) :
  get_file_type_from_ext lower (lower ext) = get_file_type_from_ext lower ext.
Proof using lower_idem. unfold get_file_type_from_ext. by rewrite lower_idem. Qed.

Lemma get_file_type_is_Some (ext : string) :
  lower ext ∈ "pdf" :: image_extensions ++ video_extensions →
  is_Some (get_file_type_from_ext lower ext).
Proof.
  unfold get_file_type_from_ext, image_extensions, video_extensions. simpl.
  intros Hext. repeat case_decide; eauto.
  rewrite !elem_of_cons, ?elem_of_nil in *. tauto.
Qed.

Lemma get_file_type_truthy (ext file_type : string) :
  get_file_type_from_ext lower ext = Some file_type → truthy_str file_type = true.
Proof.
  unfold get_file_type_from_ext. repeat case_decide; by intros [= <-].
Qed.

(** X1. The two places that know the extensions agree: for every
    extension, [get_file_type_from_ext] returns what [ALLOWED_EXTENSIONS]
    holds for its lowercased form, and [None] when the table has no such
    key. *)
Lemma get_file_type_table (ext : string) :
  get_file_type_from_ext lower ext = ALLOWED_EXTENSIONS !! lower ext.
Proof.
  unfold get_file_type_from_ext. simpl. generalize (lower ext). intros e.
  repeat case_decide; rewrite ?elem_of_cons, ?elem_of_nil in *.
  - by subst e.
  - repeat match goal with H : _ ∨ _ |- _ => destruct H as [->|H] end; done.
  - repeat match goal with H : _ ∨ _ |- _ => destruct H as [->|H] end; done.
  - symmetry. apply not_elem_of_list_to_map_1. simpl.
    rewrite !elem_of_cons, ?elem_of_nil. tauto.
Qed.

(** C1. Let [filename] be a file name.  Without a ['.'] it is refused.
    Otherwise let [ext] be the lowercased text after its last ['.']:
    when [ext] is [pdf], an image extension or a video extension,
    [allowed_file] accepts the name and [get_file_type_from_ext] gives
    [ext] the type [pdf], [image] or [video]; for any other [ext]
    [allowed_file] refuses the name and [get_file_type_from_ext] returns
    [None].  The case of the letters plays no part: the type of the raw
    suffix is the type of its lowercased form. *)
Theorem extension_classification (filename : string) :
  (dot_in filename = false → allowed_file lower filename = false) ∧
  (∀ before suffix,
     filename = before +:+ String dot suffix → dot_in suffix = false →
     let ext := lower suffix in
     (ext = "pdf" →
        allowed_file lower filename = true ∧
        get_file_type_from_ext lower ext = Some "pdf") ∧
     (ext ∈ image_extensions →
        allowed_file lower filename = true ∧
        get_file_type_from_ext lower ext = Some "image") ∧
     (ext ∈ video_extensions →
        allowed_file lower filename = true ∧
        get_file_type_from_ext lower ext = Some "video") ∧
     (ext ∉ "pdf" :: image_extensions ++ video_extensions →
        allowed_file lower filename = false ∧
        get_file_type_from_ext lower ext = None) ∧
     get_file_type_from_ext lower suffix = get_file_type_from_ext lower ext).
Proof using lower_idem.
  split; [apply allowed_file_no_dot|].
  intros before suffix -> Hsuffix. cbv zeta.
  rewrite allowed_file_suffix, get_file_type_lowered by done.
  unfold get_file_type_from_ext, image_extensions, video_extensions. simpl.
  generalize (lower suffix). intros ext.
  rewrite bool_decide_eq_true, bool_decide_eq_false.
  repeat split; intros; repeat case_decide;
    rewrite ?elem_of_cons, ?elem_of_nil in *; intuition (subst; congruence).
Qed.

End Classifier_facts.

Lemma extension_classification_witness :
  (∀ s, ascii_lower (ascii_lower s) = ascii_lower s) ∧
  allowed_file ascii_lower "Report.final.PDF" = true ∧
  get_file_type_from_ext ascii_lower "pdf" = Some "pdf".
Proof.
  split; [exact ascii_lower_idem|].
  destruct (extension_classification ascii_lower ascii_lower_idem "Report.final.PDF")
    as [_ Hdot].
  destruct (Hdot "Report.final" "PDF" eq_refl eq_refl) as [Hpdf _].
  exact (Hpdf eq_refl).
Defined.

(** ** The routes *)

Section Route_facts.

Variable lower : string → string.
Variable strip : string → string.
Variable secure_filename : string → string.
Variable ADMIN_PASSWORD : string.

Lemma admin_get (request : Request) (w : World) :
  session_admin w = true →
  method request = GET →
  admin lower strip secure_filename request w = (Returned (admin_page request w), w).
Proof. intros Hadmin Hmethod. unfold admin. run. by rewrite Hadmin, Hmethod. Qed.

(** C7. In a session whose admin flag is not set, [/admin] and
    [/admin/delete/<id>] answer with a redirect to [/admin/login] and
    leave the whole state as it was: tables, upload folder, session,
    flashed messages and journal. *)
Theorem admin_gate (request : Request) (resource_id : Z) (w : World) :
  session_admin w = false →
  admin lower strip secure_filename request w
  = (Returned (redirect "/admin/login"), w) ∧
  delete_resource resource_id w = (Returned (redirect "/admin/login"), w).
Proof. intros Hvisitor. unfold admin. run. by rewrite Hvisitor. Qed.

(** C6. A POST to [/admin/login] whose password equals [ADMIN_PASSWORD]
    stores [admin = True] in the session, so that the admin test holds
    in the resulting session, and redirects to [/admin].  With any other
    password the login page is rendered again with the error message and
    the session is the one the request came with: a flag that was not set
    is still not set. *)
Theorem login_sets_flag (request : Request) (password : string) (w : World) :
  method request = POST →
  form request !! "password" = Some password →
  (password = ADMIN_PASSWORD →
     ∃ w', admin_login ADMIN_PASSWORD request w = (Returned (redirect "/admin"), w') ∧
       session w' = <["admin" := true]> (session w) ∧
       session_admin w' = true) ∧
  (password ≠ ADMIN_PASSWORD →
     ∃ w', admin_login ADMIN_PASSWORD request w = (Returned render_login, w') ∧
       w' = flashed msg_wrong_password w ∧
       session w' = session w ∧
       (session_admin w = false → session_admin w' = false)).
Proof.
  intros Hmethod Hpassword. run. rewrite Hmethod, Hpassword. simpl. split; intros Hcmp.
  - rewrite decide_True by done. simpl. eexists. repeat split.
    unfold session_admin. simpl. by rewrite lookup_insert_eq.
  - rewrite decide_False by done. simpl. eexists. repeat split. done.
Qed.

(** C2. In an admin session, an upload whose title, category or file is
    absent (the field is missing or empty, the file part is missing or
    has no name) flashes 'Tous les champs sont obligatoires.' and renders
    the admin page; nothing else changes: no resource row, no file, no
    side effect in the journal. *)
Theorem upload_missing_field (request : Request) (w : World) :
  session_admin w = true →
  method request = POST →
  form request !! "action" = Some "upload_resource" →
  truthy_opt_str (form request !! "title") = false
  ∨ truthy_opt_str (form request !! "category") = false
  ∨ truthy_file (files request !! "file") = false →
  ∃ w',
    admin lower strip secure_filename request w
    = (Returned (admin_page request w), w') ∧
    w' = flashed msg_fields_required w ∧
    resources w' = resources w ∧
    uploads w' = uploads w ∧
    journal w' = journal w.
Proof.
  intros Hadmin Hmethod Haction Habsent.
  exists (flashed msg_fields_required w). repeat split.
  unfold admin. run. rewrite Hadmin, Hmethod, Haction. simpl.
  unfold upload_resource, all. simpl.
  replace (_ && _) with false; [done|].
  destruct Habsent as [-> | [-> | ->]]; by rewrite ?andb_false_r.
Qed.

Lemma delete_resource_found (resource : Resource.t) (w : World) :
  session_admin w = true →
  head (filter (λ r, Resource.id r = Resource.id resource) (resources w))
  = Some resource →
  delete_resource (Resource.id resource) w
  = (Returned (redirect "/admin"), deleted resource w).
Proof.
  intros Hadmin Hhead. run. rewrite Hadmin. simpl. rewrite Hhead. simpl.
  unfold deleted, flashed, log.
  destruct (bool_decide (is_Some (uploads w !! Resource.filename resource))) eqn:Hfile;
    simpl.
  - by rewrite <- app_assoc.
  - apply bool_decide_eq_false in Hfile. rewrite <- eq_None_not_Some in Hfile.
    by rewrite delete_id.
Qed.

Lemma delete_resource_absent (resource_id : Z) (w : World) :
  session_admin w = true →
  (∀ r, r ∈ resources w → Resource.id r ≠ resource_id) →
  delete_resource resource_id w = (Raised NotFound, w).
Proof.
  intros Hadmin Habsent. run. rewrite Hadmin. simpl.
  rewrite head_filter_None; [done|]. intros r Hr. by apply Habsent.
Qed.

Lemma delete_resource_bound_in_range (resource_id : Z) (w : World) :
  (resource_id ≤ SQLITE_MAX_INT)%Z →
  delete_resource_bound resource_id w = delete_resource resource_id w.
Proof.
  intros Hrange. unfold delete_resource_bound, delete_resource, Resource_get_or_404_bound.
  by rewrite decide_True.
Qed.

(** C4. In an admin session, for an id that SQLite can bind: deleting the
    id of an existing resource redirects to [/admin] and leaves the state
    [deleted resource w], where the file of the resource is gone from the
    folder, no row has the id any more, and the journal shows the removal
    of the file, when there was a file, before the deletion of the row;
    the request succeeds the same when the file was already absent; and
    deleting an id that no row has, as a second delete of the same id
    does, raises 404 and leaves the state as it was.  For an id beyond
    [SQLITE_MAX_INT], which no row can have, the lookup raises and the
    answer is a 500, not a 404, with the state as it was. *)
Theorem delete_workflow_int64 (resource_id : Z) (w : World) :
  session_admin w = true →
  ((resource_id ≤ SQLITE_MAX_INT)%Z →
     ((∃ r, r ∈ resources w ∧ Resource.id r = resource_id) →
        ∃ resource w',
          resource ∈ resources w ∧ Resource.id resource = resource_id ∧
          delete_resource_bound resource_id w = (Returned (redirect "/admin"), w') ∧
          w' = deleted resource w ∧
          uploads w' = delete (Resource.filename resource) (uploads w) ∧
          uploads w' !! Resource.filename resource = None ∧
          resources w' = filter (λ r, Resource.id r ≠ resource_id) (resources w) ∧
          (∀ r, r ∈ resources w' → Resource.id r ≠ resource_id) ∧
          journal w' =
            journal w
            ++ (if bool_decide (is_Some (uploads w !! Resource.filename resource))
                then [FileRemoved (Resource.filename resource)] else [])
            ++ [ResourceDeleted resource_id] ∧
          delete_resource_bound resource_id w' = (Raised NotFound, w')) ∧
     ((∀ r, r ∈ resources w → Resource.id r ≠ resource_id) →
        delete_resource_bound resource_id w = (Raised NotFound, w))) ∧
  ((SQLITE_MAX_INT < resource_id)%Z →
     delete_resource_bound resource_id w = (Raised InternalServerError, w)).
Proof.
  intros Hadmin. split.
  - intros Hrange. rewrite delete_resource_bound_in_range by done.
    split; [|by apply delete_resource_absent].
    intros Hexists.
    destruct (head_filter_Some (λ r, Resource.id r = resource_id) _ Hexists)
      as (resource & Hhead & Hin & Hid).
    subst resource_id.
    assert (∀ r, r ∈ resources (deleted resource w) →
                 Resource.id r ≠ Resource.id resource) as Hgone.
    { by intros r [? _]%list_elem_of_filter. }
    exists resource, (deleted resource w).
    rewrite delete_resource_bound_in_range by done.
    repeat split; [done | by apply delete_resource_found | apply lookup_delete_eq
                   | done | by apply delete_resource_absent].
  - intros Hbeyond. unfold delete_resource_bound, Resource_get_or_404_bound. monad.
    rewrite Hadmin. simpl. rewrite decide_False by lia. done.
Qed.

Lemma admin_create_category (request : Request) (raw : string) (w : World) :
  session_admin w = true →
  method request = POST →
  form request !! "action" = Some "create_category" →
  form request !! "new_category" = Some raw →
  admin lower strip secure_filename request w
  = (Returned (admin_page request w),
     if truthy_str (strip raw)
        && negb (bool_decide (is_Some (Category_by_name (strip raw) w)))
     then category_created (strip raw) w
     else flashed msg_category_refused w).
Proof.
  intros Hadmin Hmethod Haction Hraw.
  unfold admin. run. rewrite Hadmin, Hmethod, Haction, Hraw. simpl.
  by destruct (truthy_str (strip raw) && _).
Qed.

(** C5. In an admin session, let [name] be the submitted category name
    with the surrounding whitespace stripped.  When [name] is empty, and
    when a category already has exactly this name, the request flashes
    'Nom invalide ou déjà utilisé.' (the one message the handler has for
    both failures) and adds no category.  For any other name the category
    is appended to the table with a fresh id, and every later listing of
    the categories by [/admin] shows it. *)
Theorem create_category_cases (request : Request) (raw : string) (w : World) :
  session_admin w = true →
  method request = POST →
  form request !! "action" = Some "create_category" →
  form request !! "new_category" = Some raw →
  let name := strip raw in
  (name = "" →
     admin lower strip secure_filename request w
     = (Returned (admin_page request w), flashed msg_category_refused w) ∧
     categories (flashed msg_category_refused w) = categories w) ∧
  ((∃ c, c ∈ categories w ∧ Category.name c = name) →
     admin lower strip secure_filename request w
     = (Returned (admin_page request w), flashed msg_category_refused w) ∧
     categories (flashed msg_category_refused w) = categories w) ∧
  (name ≠ "" → (∀ c, c ∈ categories w → Category.name c ≠ name) →
     ∃ w',
       admin lower strip secure_filename request w
       = (Returned (admin_page request w), w') ∧
       w' = category_created name w ∧
       categories w' =
         categories w ++ [Category.mk (next_id (Category.id <$> categories w)) name] ∧
       ∀ request', method request' = GET →
         ∃ listing,
           admin lower strip secure_filename request' w'
           = (Returned (render_admin listing
                          (categories w ++
                             [Category.mk (next_id (Category.id <$> categories w))
                                          name])),
              w')).
Proof.
  intros Hadmin Hmethod Haction Hraw name.
  rewrite (admin_create_category request raw) by done. fold name.
  unfold Category_by_name. split; [|split].
  - by intros ->.
  - intros Hdup.
    destruct (head_filter_Some (λ c, Category.name c = name) _ Hdup) as (c & -> & _).
    simpl. by rewrite andb_false_r.
  - intros Hname Hnovel. rewrite head_filter_None by done.
    replace (truthy_str name) with true by (by destruct name).
    simpl. exists (category_created name w). repeat split.
    intros request' Hget. eexists. by rewrite admin_get.
Qed.

(** C10. When the [type] parameter of the query string is absent or is
    anything but [pdf], [image] or [video], the listing is the whole
    resource table: a GET of [/admin] in an admin session renders it and
    changes nothing, and whenever [/admin] renders a page the listing on
    it is the table as the request left it. *)
Theorem unknown_type_filter_ignored (request : Request) (w : World) :
  args request !! "type" ∉ [Some "pdf"; Some "image"; Some "video"] →
  Resource_query_by_type (args request !! "type") w = resources w ∧
  (session_admin w = true → method request = GET →
     admin lower strip secure_filename request w
     = (Returned (render_admin (resources w) (categories w)), w)) ∧
  (∀ listing shown w',
     admin lower strip secure_filename request w
     = (Returned (render_admin listing shown), w') →
     listing = resources w').
Proof.
  intros Hfilter.
  assert (∀ w0, Resource_query_by_type (args request !! "type") w0 = resources w0)
    as Hall.
  { intros w0. unfold Resource_query_by_type. by rewrite decide_False. }
  split; [apply Hall|]. split.
  - intros Hadmin Hget. rewrite admin_get by done. unfold admin_page. by rewrite Hall.
  - intros listing shown w'. unfold admin. monad.
    destruct (session_admin w); simpl; [|done].
    match goal with
    | |- context [match ?act with _ => _ end] => destruct act as [[[]|e] w1]
    end; [|done].
    rewrite Hall. by intros [= <- _ <-].
Qed.

End Route_facts.

(** ** The upload workflow *)

Section Upload_facts.

Variable lower : string → string.
Variable strip : string → string.
Variable secure_filename : string → string.

Hypothesis lower_idem : ∀ s, lower (lower s) = lower s.

Lemma allowed_file_classified (filename : string) :
  allowed_file lower filename = true →
  ∃ suffix file_type,
    rsplit_dot_1 filename !! 1%nat = Some suffix ∧
    get_file_type_from_ext lower (lower suffix) = Some file_type ∧
    truthy_str file_type = true.
Proof using lower_idem.
  unfold allowed_file. intros [_ Hallowed]%andb_true_iff.
  destruct (rsplit_dot_1 filename !! 1%nat) as [suffix|]; [|done].
  rewrite dict_has_ALLOWED_EXTENSIONS, bool_decide_eq_true in Hallowed.
  destruct (get_file_type_is_Some lower (lower suffix)) as [file_type Htype].
  { by rewrite lower_idem. }
  exists suffix, file_type. eauto using get_file_type_truthy.
Qed.

(** The three ways an upload ends. *)
Lemma upload_resource_cases (request : Request) (w : World) :
  let title := form request !! "title" in
  let category_id := form request !! "category" in
  let file := files request !! "file" in
  if negb (all [truthy_opt_str title; truthy_opt_str category_id; truthy_file file])
  then upload_resource lower secure_filename request w
       = (Returned tt, flashed msg_fields_required w)
  else
    ∃ title' category_id' file',
      title = Some title' ∧ category_id = Some category_id' ∧ file = Some file' ∧
      if allowed_file lower (FileStorage.filename file')
      then ∃ suffix file_type,
             rsplit_dot_1 (FileStorage.filename file') !! 1%nat = Some suffix ∧
             get_file_type_from_ext lower (lower suffix) = Some file_type ∧
             upload_resource lower secure_filename request w
             = (Returned tt,
                uploaded title' (form request !! "description")
                  (secure_filename (FileStorage.filename file')) file_type category_id'
                  (FileStorage.stream file') w)
      else upload_resource lower secure_filename request w
           = (Returned tt, flashed msg_invalid_file w).
Proof using lower_idem.
  intros title category_id file. unfold upload_resource.
  fold title category_id file.
  destruct (negb (all _)) eqn:Hall; [done|].
  apply negb_false_iff in Hall. unfold all in Hall. simpl in Hall.
  rewrite !andb_true_iff in Hall. destruct Hall as (Htitle & Hcategory & Hfile & _).
  destruct title as [title'|]; [|done].
  destruct category_id as [category_id'|]; [|done].
  destruct file as [file'|]; [|done].
  exists title', category_id', file'. repeat split.
  rewrite Hfile. simpl.
  destruct (allowed_file lower (FileStorage.filename file')) eqn:Hallowed; [|done].
  destruct (allowed_file_classified _ Hallowed) as (suffix & file_type & Hs & Ht & Htruthy).
  exists suffix, file_type. repeat split; [done..|].
  simpl. run. rewrite Hs. simpl. rewrite Ht. simpl. rewrite Htruthy. simpl.
  unfold uploaded, log, flashed. simpl. by rewrite <- app_assoc.
Qed.

(** An upload with its three fields and an allowed file name is committed
    with the category it names: the categories of the store play no part. *)
Lemma upload_commits_any_category (request : Request) (w : World)
    (title category_id : string) (file : FileStorage.t) :
  session_admin w = true →
  method request = POST →
  form request !! "action" = Some "upload_resource" →
  form request !! "title" = Some title → truthy_str title = true →
  form request !! "category" = Some category_id → truthy_str category_id = true →
  files request !! "file" = Some file →
  allowed_file lower (FileStorage.filename file) = true →
  ∃ file_type listing,
    admin lower strip secure_filename request w
    = (Returned (render_admin listing (categories w)),
       uploaded title (form request !! "description")
         (secure_filename (FileStorage.filename file)) file_type category_id
         (FileStorage.stream file) w).
Proof using lower_idem.
  intros Hadmin Hmethod Haction Htitle Htt Hcategory Hct Hfile Hallowed.
  pose proof (upload_resource_cases request w) as Hcases. cbv zeta in Hcases.
  rewrite Htitle, Hcategory, Hfile in Hcases. unfold all in Hcases. simpl in Hcases.
  rewrite Htt, Hct in Hcases.
  assert (truthy_str (FileStorage.filename file) = true) as Hname.
  { unfold allowed_file in Hallowed. by destruct (FileStorage.filename file). }
  rewrite Hname in Hcases. simpl in Hcases.
  destruct Hcases as (t & c & f & [= <-] & [= <-] & [= <-] & Hcases).
  rewrite Hallowed in Hcases. destruct Hcases as (suffix & file_type & _ & _ & Hrun).
  exists file_type. eexists.
  unfold admin. monad. rewrite Hadmin, Hmethod, Haction. simpl.
  rewrite Hrun. reflexivity.
Qed.

(** C9. A file name that [allowed_file] accepts has a suffix after its
    last ['.'], and [get_file_type_from_ext] finds a non-empty type for
    the lowercased suffix.  Hence an upload always returns, with exactly
    one new flashed message, which is 'Tous les champs sont
    obligatoires.', 'Fichier invalide ou extension non autorisée.' or
    'Contenu ajouté avec succès !', and never 'Type de fichier non
    supporté.'. *)
Theorem unsupported_type_unreachable :
  (∀ filename,
     allowed_file lower filename = true →
     ∃ suffix file_type,
       rsplit_dot_1 filename !! 1%nat = Some suffix ∧
       get_file_type_from_ext lower (lower suffix) = Some file_type ∧
       truthy_str file_type = true) ∧
  (∀ request w,
     ∃ w' m,
       upload_resource lower secure_filename request w = (Returned tt, w') ∧
       flashes w' = flashes w ++ [m] ∧
       m ∈ [msg_fields_required; msg_invalid_file; msg_resource_added] ∧
       m ≠ msg_unsupported_type).
Proof using lower_idem.
  split; [apply allowed_file_classified|].
  intros request w. pose proof (upload_resource_cases request w) as Hcases.
  cbv zeta in Hcases.
  destruct (negb (all _)).
  - exists (flashed msg_fields_required w), msg_fields_required.
    repeat split; [done | repeat constructor | done].
  - destruct Hcases as (title & category_id & file & _ & _ & _ & Hcases).
    destruct (allowed_file lower (FileStorage.filename file)).
    + destruct Hcases as (suffix & file_type & _ & _ & ->).
      eexists _, msg_resource_added. repeat split; [repeat constructor | done].
    + exists (flashed msg_invalid_file w), msg_invalid_file.
      repeat split; [done | repeat constructor | done].
Qed.

End Upload_facts.

Lemma unsupported_type_unreachable_witness :
  (∀ s, ascii_lower (ascii_lower s) = ascii_lower s) ∧
  allowed_file ascii_lower "doc.PDF" = true ∧
  ∃ suffix file_type,
    rsplit_dot_1 "doc.PDF" !! 1%nat = Some suffix ∧
    get_file_type_from_ext ascii_lower (ascii_lower suffix) = Some file_type ∧
    truthy_str file_type = true.
Proof.
  split; [exact ascii_lower_idem|]. split; [vm_compute; reflexivity|].
  destruct (unsupported_type_unreachable ascii_lower keep_safe_chars ascii_lower_idem)
    as [Hclassified _].
  apply Hclassified. vm_compute. reflexivity.
Defined.

(** C3. The upload of [doc.pdf] with category [999] into a store whose only
    category has id 1: the file is saved, a resource row with
    [category_id = 999] is inserted and the success message is flashed.
    No check of the category takes place on the way. *)
Theorem upload_dangling_category_commits :
  (Category.id <$> categories admin_store) = [1%Z] ∧
  admin ascii_lower ascii_strip keep_safe_chars upload_dangling admin_store
  = (Returned
       (render_admin [Resource.mk 1 "Report" None "doc.pdf" "pdf" "999"]
                     [Category.mk 1 default_category]),
     mkWorld [Category.mk 1 default_category]
             [Resource.mk 1 "Report" None "doc.pdf" "pdf" "999"]
             {["doc.pdf" := []]}
             {["admin" := true]}
             [msg_resource_added]
             [FileSaved "doc.pdf"; ResourceInserted 1]).
Proof. split; vm_compute; reflexivity. Qed.

Lemma admin_gate_witness :
  session_admin visitor_store = false ∧
  admin ascii_lower ascii_strip keep_safe_chars upload_dangling visitor_store
  = (Returned (redirect "/admin/login"), visitor_store) ∧
  delete_resource 1 visitor_store = (Returned (redirect "/admin/login"), visitor_store).
Proof.
  split; [reflexivity|].
  apply (admin_gate ascii_lower ascii_strip keep_safe_chars upload_dangling 1
                    visitor_store).
  reflexivity.
Defined.

Lemma login_sets_flag_witness :
  method (login_with "@dmin123") = POST ∧
  form (login_with "@dmin123") !! "password" = Some "@dmin123" ∧
  ∃ w', admin_login "@dmin123" (login_with "@dmin123") visitor_store
        = (Returned (redirect "/admin"), w') ∧
        session w' = <["admin" := true]> (session visitor_store) ∧
        session_admin w' = true.
Proof.
  split; [reflexivity|]. split; [vm_compute; reflexivity|].
  destruct (login_sets_flag "@dmin123" (login_with "@dmin123") "@dmin123" visitor_store)
    as [Hright _]; [reflexivity | vm_compute; reflexivity |].
  apply Hright. reflexivity.
Defined.

Lemma upload_missing_field_witness :
  session_admin admin_store = true ∧
  truthy_opt_str (form upload_untitled !! "title") = false ∧
  ∃ w',
    admin ascii_lower ascii_strip keep_safe_chars upload_untitled admin_store
    = (Returned (admin_page upload_untitled admin_store), w') ∧
    w' = flashed msg_fields_required admin_store ∧
    resources w' = resources admin_store ∧
    uploads w' = uploads admin_store ∧
    journal w' = journal admin_store.
Proof.
  split; [reflexivity|]. split; [vm_compute; reflexivity|].
  apply (upload_missing_field ascii_lower ascii_strip keep_safe_chars
                              upload_untitled admin_store).
  - reflexivity.
  - reflexivity.
  - vm_compute. reflexivity.
  - left. vm_compute. reflexivity.
Defined.

Lemma delete_workflow_int64_witness :
  session_admin stocked_store = true ∧
  (∀ r, r ∈ resources stocked_store → Resource.id r ≠ 9223372036854775808%Z) ∧
  delete_resource_bound 9223372036854775808 stocked_store
  = (Raised InternalServerError, stocked_store) ∧
  ∃ w',
    delete_resource_bound 1 stocked_store = (Returned (redirect "/admin"), w') ∧
    uploads w' !! "doc.pdf" = None ∧
    resources w' = [] ∧
    journal w' = [FileRemoved "doc.pdf"; ResourceDeleted 1] ∧
    delete_resource_bound 1 w' = (Raised NotFound, w').
Proof.
  split; [reflexivity|]. split.
  { intros r Hr. apply list_elem_of_singleton in Hr. subst r. discriminate. }
  split.
  - destruct (delete_workflow_int64 9223372036854775808 stocked_store eq_refl)
      as [_ Hbeyond].
    apply Hbeyond. reflexivity.
  - destruct (delete_workflow_int64 1 stocked_store eq_refl) as [Hrange _].
    destruct Hrange as [Hfound _]; [discriminate|].
    destruct Hfound
      as (resource & w' & Hin & Hid & Hrun & Hw' & _ & _ & _ & _ & _ & Hagain).
    { exists report. split; [left | reflexivity]. }
    apply list_elem_of_singleton in Hin. subst resource.
    exists w'. split; [exact Hrun|]. split; [|split; [|split]].
    + rewrite Hw'. vm_compute. reflexivity.
    + rewrite Hw'. vm_compute. reflexivity.
    + rewrite Hw'. vm_compute. reflexivity.
    + exact Hagain.
Defined.

Lemma create_category_cases_witness :
  session_admin admin_store = true ∧
  ascii_strip "  Slides " = "Slides" ∧
  ∃ w',
    admin ascii_lower ascii_strip keep_safe_chars create_slides admin_store
    = (Returned (admin_page create_slides admin_store), w') ∧
    categories w' = [Category.mk 1 default_category; Category.mk 2 "Slides"].
Proof.
  split; [reflexivity|]. split; [vm_compute; reflexivity|].
  destruct (create_category_cases ascii_lower ascii_strip keep_safe_chars
              create_slides "  Slides " admin_store) as (_ & _ & Hnovel).
  - reflexivity.
  - reflexivity.
  - vm_compute. reflexivity.
  - vm_compute. reflexivity.
  - destruct Hnovel as (w' & Hrun & _ & Hcategories & _).
    + vm_compute. discriminate.
    + intros c Hc. apply list_elem_of_singleton in Hc. subst c.
      vm_compute. discriminate.
    + exists w'. split; [exact Hrun|]. rewrite Hcategories. vm_compute. reflexivity.
Defined.

Lemma unknown_type_filter_ignored_witness :
  args list_audio !! "type" = Some "audio" ∧
  admin ascii_lower ascii_strip keep_safe_chars list_audio stocked_store
  = (Returned (render_admin (resources stocked_store) (categories stocked_store)),
     stocked_store).
Proof.
  split; [vm_compute; reflexivity|].
  destruct (unknown_type_filter_ignored ascii_lower ascii_strip keep_safe_chars
              list_audio stocked_store) as (_ & Hget & _).
  - replace (args list_audio !! "type") with (Some "audio") by (vm_compute; reflexivity).
    rewrite !elem_of_cons, elem_of_nil. intros [H | [H | [H | H]]]; by inversion H.
  - apply Hget; reflexivity.
Defined.

(** ** Start-up *)

Lemma bootstrap_empty (w : World) :
  categories w = [] → bootstrap w = (Returned tt, seeded w).
Proof.
  intros Hempty. run. rewrite Hempty. simpl. unfold seeded, log. simpl.
  by rewrite Hempty.
Qed.

Lemma bootstrap_nonempty (w : World) :
  categories w ≠ [] → bootstrap w = (Returned tt, w).
Proof. intros Hne. run. by destruct (categories w). Qed.

Lemma default_count_bootstrap (w : World) :
  (default_count w ≤ 1)%nat → (default_count (bootstrap w).2 ≤ 1)%nat.
Proof.
  intros Hcount. destruct (categories w) as [|c cs] eqn:Hcats.
  - rewrite bootstrap_empty by done. unfold default_count. simpl. lia.
  - rewrite bootstrap_nonempty; [done|]. by rewrite Hcats.
Qed.

Lemma startups_nonempty (n : nat) (w : World) :
  categories w ≠ [] → startups n w = w.
Proof.
  intros Hne. induction n as [|n IH]; simpl; [done|].
  by rewrite bootstrap_nonempty.
Qed.

(** C8. On a store without category the start-up inserts one category,
    'Général', and any number of start-ups in a row leave that single
    category.  On a store that has a category the start-up changes
    nothing, however often it runs.  Hence a store with at most one
    category named 'Général' still has at most one after any number of
    start-ups. *)
Theorem bootstrap_seeds_once (w : World) :
  (categories w = [] →
     bootstrap w = (Returned tt, seeded w) ∧
     categories (seeded w) = [Category.mk 1 default_category] ∧
     ∀ n, startups (S n) w = seeded w) ∧
  (categories w ≠ [] →
     bootstrap w = (Returned tt, w) ∧
     ∀ n, startups n w = w) ∧
  ((default_count w ≤ 1)%nat → ∀ n, (default_count (startups n w) ≤ 1)%nat).
Proof.
  split; [|split].
  - intros Hempty. split; [by apply bootstrap_empty|]. split; [done|].
    intros n. simpl. rewrite bootstrap_empty by done. by apply startups_nonempty.
  - intros Hne. split; [by apply bootstrap_nonempty|].
    intros n. by apply startups_nonempty.
  - intros Hcount n. revert w Hcount.
    induction n as [|n IH]; intros w Hcount; simpl; [done|].
    by apply IH, default_count_bootstrap.
Qed.

Lemma bootstrap_seeds_once_witness :
  categories fresh_store = [] ∧
  (default_count fresh_store ≤ 1)%nat ∧
  categories (startups 3 fresh_store) = [Category.mk 1 default_category] ∧
  (default_count (startups 3 fresh_store) ≤ 1)%nat.
Proof.
  destruct (bootstrap_seeds_once fresh_store) as (Hempty & _ & Hcount).
  split; [reflexivity|]. split; [vm_compute; lia|]. split.
  - destruct (Hempty eq_refl) as (_ & _ & Hn). rewrite (Hn 2%nat). reflexivity.
  - apply Hcount. vm_compute. lia.
Defined.

(** ** Category names stay unique *)

Section Trace_facts.

Variable lower : string → string.
Variable strip : string → string.
Variable secure_filename : string → string.
Variable ADMIN_PASSWORD : string.

Lemma upload_resource_categories (request : Request) (w : World) :
  categories (upload_resource lower secure_filename request w).2 = categories w.
Proof.
  unfold upload_resource. run. repeat case_match; simplify_eq; simpl; try done.
Qed.

Lemma create_category_unique (request : Request) (w : World) :
  unique_names w → unique_names (create_category strip request w).2.
Proof.
  intros Hunique. run. destruct (form request !! "new_category") as [raw|]; [|done].
  simpl. destruct (truthy_str (strip raw)); simpl; [|done].
  unfold Category_by_name.
  destruct (head (filter _ (categories w))) as [c|] eqn:Hhead; simpl; [done|].
  unfold unique_names. simpl. rewrite fmap_app. simpl.
  apply NoDup_app. split; [done|]. split; [|apply NoDup_singleton].
  intros name (c & Hname & Hc)%list_elem_of_fmap Hnew%list_elem_of_singleton.
  apply head_None in Hhead.
  assert (c ∈ filter (λ c0, Category.name c0 = strip raw) (categories w))
    as Hin by (apply list_elem_of_filter; split; congruence).
  rewrite Hhead in Hin. by apply elem_of_nil in Hin.
Qed.

Lemma step_unique (w : World) (e : Event) :
  unique_names w →
  unique_names (step lower strip secure_filename ADMIN_PASSWORD w e).
Proof.
  intros Hunique. destruct e as [|request| |request|resource_id]; simpl.
  - destruct (categories w) as [|c cs] eqn:Hcats.
    + rewrite bootstrap_empty by done. unfold unique_names. simpl.
      apply NoDup_singleton.
    + rewrite bootstrap_nonempty; [done|]. by rewrite Hcats.
  - run. repeat case_match; simplify_eq; done.
  - done.
  - unfold admin. monad.
    destruct (session_admin w); [|done]. simpl.
    destruct (method request); [done|].
    repeat case_decide.
    + pose proof (create_category_unique request w Hunique) as Hc.
      destruct (create_category strip request w) as [[[]|?] w1]; done.
    + pose proof (upload_resource_categories request w) as Hc.
      destruct (upload_resource lower secure_filename request w) as [[[]|?] w1];
        simpl in *; unfold unique_names; simpl; by rewrite Hc.
    + done.
  - run. repeat case_match; simplify_eq; done.
Qed.

Lemma unique_names_default_count (w : World) :
  unique_names w → (default_count w ≤ 1)%nat.
Proof.
  unfold unique_names, default_count.
  induction (categories w) as [|c cs IH]; simpl; [lia|].
  intros [Hc Hcs]%NoDup_cons. rewrite filter_cons. case_decide as Hname; [|auto].
  destruct (filter _ cs) as [|c' rest] eqn:Hrest; simpl; [lia|].
  assert (c' ∈ filter (λ c0, Category.name c0 = default_category) cs)
    as [Hname' Hc']%list_elem_of_filter by (rewrite Hrest; left).
  destruct Hc. apply list_elem_of_fmap. exists c'. split; [congruence|done].
Qed.

(** X18. Whatever start-ups and requests follow one another, a store whose
    category names are all different keeps them different, and so never
    holds two categories named 'Général'. *)
Theorem at_most_one_default (w : World) (events : list Event) :
  unique_names w →
  unique_names (run_events lower strip secure_filename ADMIN_PASSWORD w events) ∧
  (default_count (run_events lower strip secure_filename ADMIN_PASSWORD w events)
   ≤ 1)%nat.
Proof.
  intros Hunique.
  assert (unique_names
            (run_events lower strip secure_filename ADMIN_PASSWORD w events)) as H.
  { revert w Hunique. induction events as [|e events IH]; intros w Hunique; simpl.
    - done.
    - by apply IH, step_unique. }
  split; [done|]. by apply unique_names_default_count.
Qed.

End Trace_facts.

(** * Further properties *)

(** ** Fresh ids *)

Lemma next_id_above (ids : list Z) (id : Z) : id ∈ ids → (id < next_id ids)%Z.
Proof.
  unfold next_id. induction ids as [|i ids IH]; simpl.
  - by intros ?%elem_of_nil.
  - intros [->|Hin]%elem_of_cons; [lia|]. specialize (IH Hin). lia.
Qed.

Lemma next_id_fresh (ids : list Z) : next_id ids ∉ ids.
Proof. intros Hin%next_id_above. lia. Qed.


Lemma head_filter_app_found {A} (P : A → Prop) `{!∀ x, Decision (P x)}
    (l l' : list A) (x : A) :
  head (filter P l) = Some x → head (filter P (l ++ l')) = Some x.
Proof. rewrite filter_app. by destruct (filter P l). Qed.

Section Classifier_more.

Variable lower : string → string.

(** X2. [allowed_file] accepts a name exactly when the name has a ['.'] and
    [get_file_type_from_ext] finds a type for the text after the last
    ['.'], whatever the case of its letters. *)
Theorem allowed_iff_classified (filename : string) :
  allowed_file lower filename = true ↔
  ∃ before suffix,
    filename = before +:+ String dot suffix ∧ dot_in suffix = false ∧
    is_Some (get_file_type_from_ext lower suffix).
Proof.
  split.
  - intros Hallowed. pose proof Hallowed as Hdot.
    unfold allowed_file in Hdot. apply andb_true_iff in Hdot as [Hdot _].
    rewrite dot_in_rpartition, bool_decide_eq_true in Hdot.
    destruct Hdot as [[before suffix] Hparts].
    destruct (rpartition_dot_inv _ _ _ Hparts) as [-> Hsuffix].
    exists before, suffix. split; [done|]. split; [done|].
    rewrite allowed_file_suffix, bool_decide_eq_true in Hallowed by done.
    by apply get_file_type_is_Some.
  - intros (before & suffix & -> & Hsuffix & [file_type Htype]).
    rewrite allowed_file_suffix, bool_decide_eq_true by done.
    unfold get_file_type_from_ext, image_extensions, video_extensions in *.
    simpl in *. repeat case_decide; try done;
      rewrite ?elem_of_cons, ?elem_of_nil in *; tauto.
Qed.

End Classifier_more.

(** ** The public routes *)

Lemma serve_found (resource : Resource.t) (content : bytes) (w : World) :
  head (filter (λ r, Resource.id r = Resource.id resource) (resources w))
  = Some resource →
  uploads w !! Resource.filename resource = Some content →
  view (Resource.id resource) w = (Returned (send_file content false), w) ∧
  download (Resource.id resource) w = (Returned (send_file content true), w).
Proof. intros Hrow Hfile. run_public. by rewrite Hrow; simpl; rewrite Hfile. Qed.

Lemma serve_no_row (resource_id : Z) (w : World) :
  (∀ r, r ∈ resources w → Resource.id r ≠ resource_id) →
  view resource_id w = (Raised NotFound, w) ∧
  download resource_id w = (Raised NotFound, w).
Proof.
  intros Habsent. run_public. rewrite head_filter_None; [done|].
  intros r Hr. by apply Habsent.
Qed.

Lemma serve_no_file (resource : Resource.t) (w : World) :
  head (filter (λ r, Resource.id r = Resource.id resource) (resources w))
  = Some resource →
  uploads w !! Resource.filename resource = None →
  view (Resource.id resource) w = (Raised NotFound, w) ∧
  download (Resource.id resource) w = (Raised NotFound, w).
Proof. intros Hrow Hfile. run_public. by rewrite Hrow; simpl; rewrite Hfile. Qed.

Section Public_facts.

Variable category_matches : string → string → bool.

(** X8. The public routes need no login and write nothing: [/],
    [/view/<id>] and [/download/<id>] leave the state as it was, and their
    answer is the same under any session cookie. *)
Theorem public_routes_read_only (request : Request) (resource_id : Z)
    (s : gmap string bool) (w : World) :
  (index category_matches request w).2 = w ∧
  (view resource_id w).2 = w ∧
  (download resource_id w).2 = w ∧
  (index category_matches request (with_session s w)).1
  = (index category_matches request w).1 ∧
  (view resource_id (with_session s w)).1 = (view resource_id w).1 ∧
  (download resource_id (with_session s w)).1 = (download resource_id w).1.
Proof.
  run_public. unfold with_session. simpl.
  destruct (head (filter _ (resources w))) as [resource|]; simpl; [|done].
  by destruct (uploads w !! Resource.filename resource).
Qed.

(** X9. [/view] and [/download] serve the same bytes and fail together:
    one sends content [c] inline exactly when the other sends [c] as an
    attachment. *)
Theorem view_download_agree (resource_id : Z) (content : bytes) (w : World) :
  view resource_id w = (Returned (send_file content false), w) ↔
  download resource_id w = (Returned (send_file content true), w).
Proof.
  run_public.
  destruct (head (filter _ (resources w))) as [resource|]; simpl; [|done].
  destruct (uploads w !! Resource.filename resource); simpl; [|done].
  split; by intros [= ->].
Qed.

(** X10. Without a [cat] parameter, or with an empty one, [/] lists every
    resource and every category; with a [cat] it lists, in table order,
    the resources whose category matches it, and still every category. *)
Theorem index_listing (request : Request) (w : World) :
  (truthy_opt_str (args request !! "cat") = false →
     index category_matches request w
     = (Returned (render_client (resources w) (categories w)), w)) ∧
  (∀ cat_id, args request !! "cat" = Some cat_id → truthy_str cat_id = true →
     ∃ listing,
       index category_matches request w
       = (Returned (render_client listing (categories w)), w) ∧
       listing `sublist_of` resources w ∧
       ∀ r, r ∈ listing ↔
            r ∈ resources w ∧ category_matches (Resource.category_id r) cat_id = true).
Proof.
  split.
  - intros Hcat. run_public. destruct (args request !! "cat") as [cat_id|]; [|done].
    simpl in Hcat. by rewrite Hcat.
  - intros cat_id Hcat Htruthy. eexists. run_public. rewrite Hcat, Htruthy.
    split; [done|]. split; [apply sublist_filter|].
    intros r. rewrite list_elem_of_filter. tauto.
Qed.

End Public_facts.

(** ** Uploads and what they make retrievable *)

Section Upload_more.

Variable lower : string → string.
Variable strip : string → string.
Variable secure_filename : string → string.

Hypothesis lower_idem : ∀ s, lower (lower s) = lower s.


(** X4. An upload whose three fields are present but whose file name
    [allowed_file] refuses only flashes 'Fichier invalide ou extension non
    autorisée.': no file is written and no row is inserted. *)
Theorem upload_invalid_extension (request : Request) (w : World)
    (file : FileStorage.t) :
  session_admin w = true →
  method request = POST →
  form request !! "action" = Some "upload_resource" →
  truthy_opt_str (form request !! "title") = true →
  truthy_opt_str (form request !! "category") = true →
  files request !! "file" = Some file →
  truthy_str (FileStorage.filename file) = true →
  allowed_file lower (FileStorage.filename file) = false →
  admin lower strip secure_filename request w
  = (Returned (admin_page request w), flashed msg_invalid_file w) ∧
  stores (flashed msg_invalid_file w) = stores w ∧
  journal (flashed msg_invalid_file w) = journal w.
Proof.
  intros Hadmin Hmethod Haction Htitle Hcategory Hfile Hname Hallowed.
  split; [|done].
  unfold admin. run. rewrite Hadmin, Hmethod, Haction. simpl.
  unfold upload_resource, all, truthy_file. rewrite Hfile.
  destruct (form request !! "title") as [title|]; [|done].
  destruct (form request !! "category") as [category_id|]; [|done].
  simpl in *. by rewrite Htitle, Hcategory, Hname, Hallowed.
Qed.

(** X5. Stored names are not made unique: when an upload is saved under the
    file name of an existing resource, the old file is overwritten, and
    [/view] of the old resource returns the new bytes. *)
Theorem upload_overwrites_same_name (request : Request) (w : World)
    (title category_id : string) (file : FileStorage.t) (old : Resource.t) :
  session_admin w = true →
  method request = POST →
  form request !! "action" = Some "upload_resource" →
  form request !! "title" = Some title → truthy_str title = true →
  form request !! "category" = Some category_id → truthy_str category_id = true →
  files request !! "file" = Some file →
  allowed_file lower (FileStorage.filename file) = true →
  head (filter (λ r, Resource.id r = Resource.id old) (resources w)) = Some old →
  secure_filename (FileStorage.filename file) = Resource.filename old →
  let w' := (admin lower strip secure_filename request w).2 in
  view (Resource.id old) w' = (Returned (send_file (FileStorage.stream file) false), w') ∧
  download (Resource.id old) w'
  = (Returned (send_file (FileStorage.stream file) true), w').
Proof using lower_idem.
  intros Hadmin Hmethod Haction Htitle Htt Hcategory Hct Hfile Hallowed Hold Hsame.
  destruct (upload_commits_any_category lower strip secure_filename lower_idem
              request w title category_id file) as (file_type & listing & Hrun);
    try done.
  rewrite Hrun. simpl. apply serve_found.
  - simpl. by apply head_filter_app_found.
  - simpl. rewrite Hsame. apply lookup_insert_eq.
Qed.

End Upload_more.

(** ** Deletion and what stays retrievable *)

Lemma head_filter_deleted (resource : Resource.t) (resource_id : Z)
    (l : list Resource.t) :
  resource_id ≠ Resource.id resource →
  head (filter (λ r, Resource.id r = resource_id)
          (filter (λ r, Resource.id r ≠ Resource.id resource) l))
  = head (filter (λ r, Resource.id r = resource_id) l).
Proof.
  intros Hne. rewrite list_filter_filter_l; [done|]. intros r ->. done.
Qed.

(** X6. Once a resource is deleted, [/view] and [/download] of its id
    answer 404; so does [/view] of any other resource stored under the
    same file name, its file having been removed with the first. *)
Theorem delete_then_not_found (resource other : Resource.t) (w : World) :
  session_admin w = true →
  head (filter (λ r, Resource.id r = Resource.id resource) (resources w))
  = Some resource →
  let w' := (delete_resource (Resource.id resource) w).2 in
  view (Resource.id resource) w' = (Raised NotFound, w') ∧
  download (Resource.id resource) w' = (Raised NotFound, w') ∧
  (head (filter (λ r, Resource.id r = Resource.id other) (resources w)) = Some other →
   Resource.id other ≠ Resource.id resource →
   Resource.filename other = Resource.filename resource →
   view (Resource.id other) w' = (Raised NotFound, w')).
Proof.
  intros Hadmin Hrow. rewrite delete_resource_found by done. simpl.
  destruct (serve_no_row (Resource.id resource) (deleted resource w)) as [Hv Hd].
  { by intros r [? _]%list_elem_of_filter. }
  split; [done|]. split; [done|].
  intros Hother Hne Hsame. apply (serve_no_file other).
  - simpl. by rewrite head_filter_deleted.
  - simpl. rewrite Hsame. apply lookup_delete_eq.
Qed.

(** X7. Deleting a resource leaves the others as they were: a resource with
    another id and another file name is served after the deletion as it
    was before, and the categories are untouched. *)
Theorem delete_keeps_others (resource_id other_id : Z) (w : World) :
  other_id ≠ resource_id →
  (∀ r r', r ∈ resources w → r' ∈ resources w →
           Resource.id r = resource_id → Resource.id r' = other_id →
           Resource.filename r' ≠ Resource.filename r) →
  let w' := (delete_resource resource_id w).2 in
  (view other_id w').1 = (view other_id w).1 ∧
  (download other_id w').1 = (download other_id w).1 ∧
  categories w' = categories w.
Proof.
  intros Hne Hnames. run. run_public.
  destruct (session_admin w); simpl; [|done].
  destruct (head (filter _ (resources w))) as [resource|] eqn:Hrow; simpl; [|done].
  apply head_Some_elem_of, list_elem_of_filter in Hrow as [Hid Hin].
  assert (head (filter (λ r, Resource.id r = other_id)
                  (filter (λ r, Resource.id r ≠ Resource.id resource) (resources w)))
          = head (filter (λ r, Resource.id r = other_id) (resources w))) as Hhead.
  { apply head_filter_deleted. congruence. }
  destruct (head (filter (λ r, Resource.id r = other_id) (resources w)))
    as [other|] eqn:Hother.
  - apply head_Some_elem_of, list_elem_of_filter in Hother as [Hid' Hin'].
    destruct (bool_decide _); simpl; rewrite Hhead; simpl;
      rewrite ?lookup_delete_ne by (intros Heq; by apply (Hnames resource other));
      by destruct (uploads w !! Resource.filename other).
  - destruct (bool_decide _); simpl; by rewrite Hhead.
Qed.

(** ** Sessions *)

Section Session_facts.

Variable lower : string → string.
Variable strip : string → string.
Variable secure_filename : string → string.
Variable ADMIN_PASSWORD : string.

(** X11. After a POST of the right password, from any session, [/admin]
    answers with the admin page instead of a redirect; the login itself
    changes neither the tables nor the folder. *)
Theorem login_opens_admin (request request' : Request) (w : World) :
  method request = POST →
  form request !! "password" = Some ADMIN_PASSWORD →
  method request' = GET →
  let w' := (admin_login ADMIN_PASSWORD request w).2 in
  stores w' = stores w ∧
  admin lower strip secure_filename request' w' = (Returned (admin_page request' w'), w').
Proof.
  intros Hmethod Hpassword Hget. run. rewrite Hmethod, Hpassword. simpl.
  rewrite decide_True by done. simpl. split; [done|].
  apply admin_get; [|done]. unfold session_admin. simpl. by rewrite lookup_insert_eq.
Qed.

(** X12. [/admin/logout] always redirects to [/] and removes the admin flag,
    set or not: afterwards [/admin] and [/admin/delete/<id>] redirect to
    the login page.  It changes nothing but the session, and a second
    logout changes nothing at all. *)
Theorem logout_closes_admin (request : Request) (resource_id : Z) (w : World) :
  ∃ w',
    admin_logout w = (Returned (redirect "/"), w') ∧
    w' = with_session (delete "admin" (session w)) w ∧
    session_admin w' = false ∧
    admin lower strip secure_filename request w'
    = (Returned (redirect "/admin/login"), w') ∧
    delete_resource resource_id w' = (Returned (redirect "/admin/login"), w') ∧
    admin_logout w' = (Returned (redirect "/"), w').
Proof.
  eexists. split; [run; reflexivity|]. split; [done|].
  assert (session_admin (with_session (delete "admin" (session w)) w) = false) as Hout.
  { unfold session_admin. simpl. by rewrite lookup_delete_eq. }
  split; [done|]. split; [|split].
  - unfold admin. run. unfold session_admin. simpl. by rewrite lookup_delete_eq.
  - run. unfold session_admin. simpl. by rewrite lookup_delete_eq.
  - run. unfold with_session. simpl. by rewrite delete_delete_eq.
Qed.

(** X13. A form without the field a handler subscripts is a 400 that leaves
    the state as it was: [/admin/login] without [password], and action
    [create_category] without [new_category]. *)
Theorem missing_field_bad_request (request : Request) (w : World) :
  method request = POST →
  (form request !! "password" = None →
     admin_login ADMIN_PASSWORD request w = (Raised BadRequest, w)) ∧
  (session_admin w = true →
   form request !! "action" = Some "create_category" →
   form request !! "new_category" = None →
     admin lower strip secure_filename request w = (Raised BadRequest, w)).
Proof.
  intros Hmethod. split.
  - intros Hmissing. run. by rewrite Hmethod, Hmissing.
  - intros Hadmin Haction Hmissing. unfold admin. run.
    by rewrite Hadmin, Hmethod, Haction, Hmissing.
Qed.

(** X14. In an admin session a POST to [/admin] whose [action] is missing or
    is neither [create_category] nor [upload_resource] does what a GET
    does: it renders the page and changes nothing, without any message. *)
Theorem unknown_action_ignored (request : Request) (w : World) :
  session_admin w = true →
  form request !! "action" ∉ [Some "create_category"; Some "upload_resource"] →
  admin lower strip secure_filename request w = (Returned (admin_page request w), w).
Proof.
  intros Hadmin Haction. unfold admin. run. rewrite Hadmin. simpl.
  destruct (method request); [done|].
  rewrite !decide_False; [done| |]; intros Heq; apply Haction; rewrite Heq;
    repeat constructor.
Qed.

(** X15. The page [/admin] renders shows the categories as they were when
    the request arrived and the resources as the request leaves them: a
    category created by the request is not on its own page, an uploaded
    resource is. *)
Theorem admin_page_snapshot (request : Request) (w w' : World)
    (listing : list Resource.t) (shown : list Category.t) :
  admin lower strip secure_filename request w
  = (Returned (render_admin listing shown), w') →
  shown = categories w ∧
  listing = Resource_query_by_type (args request !! "type") w'.
Proof.
  unfold admin. monad. destruct (session_admin w); simpl; [|done].
  match goal with
  | |- context [match ?act with _ => _ end] => destruct act as [[[]|e] w1]
  end; [|done].
  by intros [= <- <- <-].
Qed.

End Session_facts.

(** ** What a start-up or a request can change *)

Section Change_facts.

Variable lower : string → string.
Variable strip : string → string.
Variable secure_filename : string → string.
Variable ADMIN_PASSWORD : string.

Lemma get_file_type_in_types (ext file_type : string) :
  get_file_type_from_ext lower ext = Some file_type → file_type ∈ file_types.
Proof.
  unfold get_file_type_from_ext, file_types.
  repeat case_decide; intros [= <-]; repeat constructor.
Qed.

Lemma upload_resource_change (request : Request) (w : World) :
  session_admin w = true →
  Change w (upload_resource lower secure_filename request w).2.
Proof.
  intros Hadmin. unfold upload_resource.
  destruct (negb (all _)); [apply change_flash|].
  destruct (form request !! "title") as [title|]; [|apply change_none].
  destruct (form request !! "category") as [category_id|]; [|apply change_none].
  destruct (files request !! "file") as [file|]; [|apply change_none].
  destruct (negb _ || negb _); [apply change_flash|].
  run. destruct (rsplit_dot_1 _ !! 1%nat) as [suffix|]; [|apply change_none].
  simpl.
  destruct (get_file_type_from_ext lower (lower suffix)) as [file_type|] eqn:Htype;
    simpl; [|apply change_flash].
  destruct (truthy_str file_type); simpl; [|apply change_flash].
  pose proof (change_upload w title (form request !! "description")
                (secure_filename (FileStorage.filename file)) file_type category_id
                (FileStorage.stream file) Hadmin
                (get_file_type_in_types _ _ Htype)) as Hchange.
  unfold uploaded in Hchange. unfold flashed, log. simpl.
  by rewrite <- app_assoc.
Qed.

Lemma create_category_change (request : Request) (w : World) :
  session_admin w = true →
  Change w (create_category strip request w).2.
Proof.
  intros Hadmin. run.
  destruct (form request !! "new_category") as [raw|]; [|apply change_none].
  simpl. destruct (truthy_str (strip raw)) eqn:Hname; simpl; [|apply change_flash].
  unfold Category_by_name.
  destruct (head (filter _ (categories w))) as [c|] eqn:Hhead; simpl;
    [apply change_flash|].
  apply (change_category w (strip raw)); [done | by intros Heq; rewrite Heq in Hname |].
  intros c Hc Hsame. apply head_None in Hhead.
  assert (c ∈ filter (λ c0, Category.name c0 = strip raw) (categories w)) as Hin
    by (by apply list_elem_of_filter).
  rewrite Hhead in Hin. by apply elem_of_nil in Hin.
Qed.

(** Every event changes the state in one of the listed ways. *)
Lemma step_change (w : World) (e : Event) :
  Change w (step lower strip secure_filename ADMIN_PASSWORD w e).
Proof.
  destruct e as [|request| |request|resource_id]; simpl.
  - destruct (categories w) as [|c cs] eqn:Hcats.
    + rewrite bootstrap_empty by done. by apply change_seed.
    + rewrite bootstrap_nonempty by (by rewrite Hcats). apply change_none.
  - run. destruct (method request); [apply change_none|].
    destruct (form request !! "password") as [password|]; [|apply change_none].
    simpl. case_decide; simpl.
    + apply (change_session w (<["admin" := true]> (session w))).
    + apply change_flash.
  - apply (change_session w (delete "admin" (session w))).
  - unfold admin. monad. destruct (session_admin w) eqn:Hadmin; [|apply change_none].
    simpl. destruct (method request); [apply change_none|].
    repeat case_decide.
    + pose proof (create_category_change request w Hadmin) as Hc.
      by destruct (create_category strip request w) as [[[]|?] w1].
    + pose proof (upload_resource_change request w Hadmin) as Hc.
      by destruct (upload_resource lower secure_filename request w) as [[[]|?] w1].
    + apply change_none.
  - destruct (session_admin w) eqn:Hadmin.
    + destruct (head (filter (λ r, Resource.id r = resource_id) (resources w)))
        as [resource|] eqn:Hrow.
      * pose proof Hrow as [Hid Hin]%head_Some_elem_of%list_elem_of_filter.
        subst resource_id. rewrite delete_resource_found by done.
        by apply change_delete.
      * run. rewrite Hadmin. simpl. rewrite Hrow. apply change_none.
    + run. rewrite Hadmin. apply change_none.
Qed.

Lemma change_well_formed (w w' : World) :
  Change w w' → well_formed w → well_formed w'.
Proof.
  intros Hchange (Hcats & Hids & Htypes).
  destruct Hchange as [|m|s|title description filename file_type category_id content
                        Hadmin Htype|resource Hadmin Hin|name Hadmin Hname Hnovel|Hempty];
    unfold well_formed; simpl; try done.
  - split; [done|]. rewrite fmap_app. split.
    + apply NoDup_app. split; [done|]. split; [|apply NoDup_singleton].
      intros id Hid ->%list_elem_of_singleton. by apply next_id_fresh in Hid.
    + apply Forall_app. split; [done|]. by apply Forall_singleton.
  - split; [done|]. split.
    + apply (sublist_NoDup _ (Resource.id <$> resources w)); [done|].
      apply fmap_sublist, sublist_filter.
    + rewrite Forall_forall in *. intros r [_ Hr]%list_elem_of_filter. by apply Htypes.
  - split; [|done]. rewrite fmap_app. apply NoDup_app.
    split; [done|]. split; [|apply NoDup_singleton].
    intros id Hid ->%list_elem_of_singleton. by apply next_id_fresh in Hid.
  - split; [apply NoDup_singleton|done].
Qed.

Lemma run_events_well_formed (w : World) (events : list Event) :
  well_formed w →
  well_formed (run_events lower strip secure_filename ADMIN_PASSWORD w events).
Proof.
  revert w. induction events as [|e events IH]; intros w Hwf; simpl; [done|].
  apply IH. eapply change_well_formed; [apply step_change | done].
Qed.

(** X16. Whatever start-ups and requests follow one another, primary keys
    stay unique and every resource row carries one of the three file
    types.  In such a store a resource is found by its id, and it is on
    the admin listing of exactly one type: its own. *)
Theorem well_formed_invariant (w : World) (events : list Event) :
  well_formed w →
  let w' := run_events lower strip secure_filename ADMIN_PASSWORD w events in
  well_formed w' ∧
  ∀ r, r ∈ resources w' →
    Resource_get_or_404 (Resource.id r) w' = (Returned r, w') ∧
    Resource.file_type r ∈ file_types ∧
    ∀ t, t ∈ file_types →
      (r ∈ Resource_query_by_type (Some t) w' ↔ t = Resource.file_type r).
Proof.
  intros Hwf w'. pose proof (run_events_well_formed w events Hwf) as Hwf'.
  fold w' in Hwf'. split; [done|]. destruct Hwf' as (_ & Hids & Htypes).
  intros r Hr. split; [|split].
  - unfold Resource_get_or_404. monad.
    destruct (head_filter_Some (λ r0, Resource.id r0 = Resource.id r) (resources w'))
      as (r' & -> & Hr' & Hsame); [by exists r|].
    simpl. replace r' with r; [done|].
    clear -Hids Hr Hr' Hsame. induction (resources w') as [|x l IH]; [by inversion Hr|].
    simpl in Hids. apply NoDup_cons in Hids as [Hx Hl].
    apply elem_of_cons in Hr as [->|Hr]; apply elem_of_cons in Hr' as [->|Hr'].
    + done.
    + destruct Hx. rewrite <- Hsame. by apply list_elem_of_fmap_2.
    + destruct Hx. rewrite Hsame. by apply list_elem_of_fmap_2.
    + by apply IH.
  - rewrite Forall_forall in Htypes. by apply Htypes.
  - intros t Ht. unfold Resource_query_by_type.
    rewrite decide_True.
    + rewrite list_elem_of_filter. split; [by intros [[= ->] _] | by intros ->].
    + unfold file_types in Ht. rewrite !elem_of_cons, ?elem_of_nil in *.
      destruct Ht as [->|[->|[->|[]]]]; auto.
Qed.

(** X17. A visitor cannot change anything: from a session without the admin
    flag, any sequence of requests to the admin routes that contains no
    login with the right password leaves the tables and the folder as
    they were, and the session without the flag. *)
Theorem visitor_changes_nothing (w : World) (events : list Event) :
  session_admin w = false →
  Forall (without_password ADMIN_PASSWORD) events →
  let w' := run_events lower strip secure_filename ADMIN_PASSWORD w events in
  stores w' = stores w ∧ session_admin w' = false.
Proof.
  intros Hvisitor Hevents. simpl. revert w Hvisitor.
  induction Hevents as [|e events He _ IH]; intros w Hvisitor; simpl; [done|].
  assert (stores (step lower strip secure_filename ADMIN_PASSWORD w e) = stores w ∧
          session_admin (step lower strip secure_filename ADMIN_PASSWORD w e) = false)
    as [Hstores Hsession].
  { destruct e as [|request| |request|resource_id]; simpl in *.
    - done.
    - run. destruct (method request); [done|].
      destruct (form request !! "password") as [password|]; [|done]. simpl.
      destruct He as [|Hwrong]; [done|].
      rewrite decide_False by congruence. done.
    - split; [done|]. unfold session_admin. simpl. by rewrite lookup_delete_eq.
    - unfold admin. monad. by rewrite Hvisitor.
    - run. by rewrite Hvisitor. }
  destruct (IH _ Hsession) as [Hstores' Hsession']. split; [|done].
  by rewrite Hstores'.
Qed.

End Change_facts.

(** ** The further properties on sample inputs *)


Lemma upload_invalid_extension_witness :
  allowed_file ascii_lower "malware.exe" = false ∧
  admin ascii_lower ascii_strip keep_safe_chars (upload_of "malware.exe" []) admin_store
  = (Returned (admin_page (upload_of "malware.exe" []) admin_store),
     flashed msg_invalid_file admin_store).
Proof.
  split; [vm_compute; reflexivity|].
  apply (upload_invalid_extension ascii_lower ascii_strip keep_safe_chars
           (upload_of "malware.exe" []) admin_store (FileStorage.mk "malware.exe" []));
    vm_compute; reflexivity.
Defined.

Lemma upload_overwrites_same_name_witness :
  uploads stocked_store !! "doc.pdf" = Some [] ∧
  let w' := (admin ascii_lower ascii_strip keep_safe_chars
               (upload_of "doc.pdf" [Byte.x25]) stocked_store).2 in
  view 1 w' = (Returned (send_file [Byte.x25] false), w').
Proof.
  split; [vm_compute; reflexivity|].
  apply (upload_overwrites_same_name ascii_lower ascii_strip keep_safe_chars
           ascii_lower_idem (upload_of "doc.pdf" [Byte.x25]) stocked_store
           "Report" "1" (FileStorage.mk "doc.pdf" [Byte.x25]) report);
    vm_compute; reflexivity.
Defined.

Lemma delete_then_not_found_witness :
  view 1 library_store = (Returned (send_file [] false), library_store) ∧
  let w' := (delete_resource 1 library_store).2 in
  view 1 w' = (Raised NotFound, w') ∧ download 1 w' = (Raised NotFound, w').
Proof.
  split; [vm_compute; reflexivity|].
  destruct (delete_then_not_found report picture library_store) as (Hview & Hdownload & _);
    [reflexivity | vm_compute; reflexivity |].
  split; [exact Hview | exact Hdownload].
Defined.

Lemma delete_keeps_others_witness :
  let w' := (delete_resource 1 library_store).2 in
  (view 2 w').1 = Returned (send_file [Byte.x89] false) ∧
  categories w' = categories library_store.
Proof.
  destruct (delete_keeps_others 1 2 library_store) as (Hview & _ & Hcategories).
  - discriminate.
  - intros r r' Hr Hr' Hid Hid'.
    unfold library_store in Hr, Hr'. simpl in Hr, Hr'.
    rewrite !elem_of_cons, elem_of_nil in Hr, Hr'.
    destruct Hr as [->|[->|[]]]; [|discriminate Hid].
    destruct Hr' as [->|[->|[]]]; [discriminate Hid'|]. discriminate.
  - split; [|exact Hcategories]. simpl in Hview |- *. rewrite Hview.
    vm_compute. reflexivity.
Defined.

Lemma index_listing_witness :
  args (list_by "cat" "1") !! "cat" = Some "1" ∧
  ∃ listing,
    index String.eqb (list_by "cat" "1") library_store
    = (Returned (render_client listing (categories library_store)), library_store) ∧
    listing `sublist_of` resources library_store.
Proof.
  split; [vm_compute; reflexivity|].
  destruct (index_listing String.eqb (list_by "cat" "1") library_store) as [_ Hcat].
  destruct (Hcat "1") as (listing & Hrun & Hsub & _);
    [vm_compute; reflexivity | reflexivity |].
  exists listing. split; [exact Hrun | exact Hsub].
Defined.

Lemma login_opens_admin_witness :
  session_admin visitor_store = false ∧
  let w' := (admin_login "@dmin123" (login_with "@dmin123") visitor_store).2 in
  stores w' = stores visitor_store ∧
  admin ascii_lower ascii_strip keep_safe_chars plain_get w'
  = (Returned (admin_page plain_get w'), w').
Proof.
  split; [reflexivity|].
  apply (login_opens_admin ascii_lower ascii_strip keep_safe_chars "@dmin123"
           (login_with "@dmin123") plain_get visitor_store);
    vm_compute; reflexivity.
Defined.

Lemma missing_field_bad_request_witness :
  form (post_action "create_category") !! "new_category" = None ∧
  admin_login "@dmin123" (post_action "create_category") admin_store
  = (Raised BadRequest, admin_store) ∧
  admin ascii_lower ascii_strip keep_safe_chars (post_action "create_category")
        admin_store
  = (Raised BadRequest, admin_store).
Proof.
  split; [vm_compute; reflexivity|].
  destruct (missing_field_bad_request ascii_lower ascii_strip keep_safe_chars "@dmin123"
              (post_action "create_category") admin_store eq_refl) as [Hlogin Hcreate].
  split.
  - apply Hlogin. vm_compute. reflexivity.
  - apply Hcreate; vm_compute; reflexivity.
Defined.

Lemma unknown_action_ignored_witness :
  session_admin admin_store = true ∧
  admin ascii_lower ascii_strip keep_safe_chars (post_action "rename_category")
        admin_store
  = (Returned (admin_page (post_action "rename_category") admin_store), admin_store).
Proof.
  split; [reflexivity|].
  apply (unknown_action_ignored ascii_lower ascii_strip keep_safe_chars
           (post_action "rename_category") admin_store); [reflexivity|].
  replace (form (post_action "rename_category") !! "action")
    with (Some "rename_category") by (vm_compute; reflexivity).
  rewrite !elem_of_cons, elem_of_nil. intros [H | [H | H]]; by inversion H.
Defined.

Lemma admin_page_snapshot_witness :
  ∃ listing shown w',
    admin ascii_lower ascii_strip keep_safe_chars create_slides admin_store
    = (Returned (render_admin listing shown), w') ∧
    shown = [Category.mk 1 default_category] ∧
    categories w' = [Category.mk 1 default_category; Category.mk 2 "Slides"].
Proof.
  eexists _, _, _. split; [vm_compute; reflexivity|].
  split; [|reflexivity].
  eapply (admin_page_snapshot ascii_lower ascii_strip keep_safe_chars create_slides
            admin_store).
  vm_compute. reflexivity.
Defined.

Lemma library_store_well_formed : well_formed library_store.
Proof.
  unfold well_formed, library_store, file_types. simpl. split; [|split].
  - apply NoDup_singleton.
  - apply NoDup_cons. split; [|apply NoDup_singleton].
    rewrite list_elem_of_singleton. discriminate.
  - repeat constructor.
Qed.

Lemma well_formed_invariant_witness :
  well_formed library_store ∧
  well_formed
    (run_events ascii_lower ascii_strip keep_safe_chars "@dmin123" library_store
       [Admin (upload_of "notes.PDF" []); Delete 1; Startup; Admin create_slides]).
Proof.
  split; [exact library_store_well_formed|].
  apply (well_formed_invariant ascii_lower ascii_strip keep_safe_chars "@dmin123"
           library_store
           [Admin (upload_of "notes.PDF" []); Delete 1; Startup; Admin create_slides]).
  exact library_store_well_formed.
Defined.

Lemma visitor_changes_nothing_witness :
  session_admin visitor_store = false ∧
  stores
    (run_events ascii_lower ascii_strip keep_safe_chars "@dmin123" visitor_store
       [Login (login_with "admin"); Admin create_slides; Delete 1; Logout])
  = stores visitor_store.
Proof.
  split; [reflexivity|].
  apply (visitor_changes_nothing ascii_lower ascii_strip keep_safe_chars "@dmin123"
           visitor_store
           [Login (login_with "admin"); Admin create_slides; Delete 1; Logout]);
    [reflexivity|].
  constructor; [right; vm_compute; discriminate | repeat constructor].
Defined.

Lemma at_most_one_default_witness :
  unique_names admin_store ∧
  (default_count
     (run_events ascii_lower ascii_strip keep_safe_chars "@dmin123" admin_store
        [Startup; Admin create_slides; Startup])
   ≤ 1)%nat.
Proof.
  assert (unique_names admin_store) as Hunique by apply NoDup_singleton.
  split; [exact Hunique|].
  apply (at_most_one_default ascii_lower ascii_strip keep_safe_chars "@dmin123"
           admin_store [Startup; Admin create_slides; Startup]).
  exact Hunique.
Defined.
